(** * GraphicBufferMapper::lockAsyncYCbCr

    A shallow embedding of the YCbCr flex-layout path of
    libs/ui/GraphicBufferMapper.cpp: the static helper isValidYCbCrPlane,
    unlock / unlockAsync, and lockAsyncYCbCr itself.  The two gralloc
    backends (the Gralloc2 mapper and the Gralloc1 device) are external; they
    appear as a record of responses.  The calls the mapper makes on a backend
    are logged, so that the pairing of lock and unlock can be stated. *)

From Stdlib Require Import ZArith NArith List Bool Lia Permutation.
Import ListNotations.

Local Open Scope Z_scope.

(** ** Types of the platform headers *)

(** Modelled from the spec: the enum android_flex_component_t is declared in
    system/graphics.h, which is not under src/.  The spec's data model gives
    the component identifier as luma Y, chroma Cb, chroma Cr, or other; the
    source compares it only against the three named constants. *)
Inductive android_flex_component_t : Type :=
| FLEX_COMPONENT_Y
| FLEX_COMPONENT_Cb
| FLEX_COMPONENT_Cr
| FLEX_COMPONENT_other.

(** Modelled from the spec: the enum android_flex_format_t is declared in
    system/graphics.h, which is not under src/.  The spec speaks of an overall
    pixel-format tag that is YCbCr or not; FLEX_FORMAT_INVALID is the tag of a
    value-initialised layout (android_flex_layout_t flexLayout{}). *)
Inductive android_flex_format_t : Type :=
| FLEX_FORMAT_INVALID
| FLEX_FORMAT_YCbCr
| FLEX_FORMAT_other.

(** Modelled from the spec: gralloc1_error_t is declared in
    hardware/gralloc1.h, which is not under src/.  The spec's error taxonomy
    has success, the unsupported-layout outcome, and opaque device errors that
    are passed through unchanged. *)
Inductive gralloc1_error_t : Type :=
| GRALLOC1_ERROR_NONE
| GRALLOC1_ERROR_UNSUPPORTED
| GRALLOC1_ERROR_device (code : Z).

Definition component_eqb (a b : android_flex_component_t) : bool :=
  match a, b with
  | FLEX_COMPONENT_Y, FLEX_COMPONENT_Y => true
  | FLEX_COMPONENT_Cb, FLEX_COMPONENT_Cb => true
  | FLEX_COMPONENT_Cr, FLEX_COMPONENT_Cr => true
  | FLEX_COMPONENT_other, FLEX_COMPONENT_other => true
  | _, _ => false
  end.

Definition format_eqb (a b : android_flex_format_t) : bool :=
  match a, b with
  | FLEX_FORMAT_INVALID, FLEX_FORMAT_INVALID => true
  | FLEX_FORMAT_YCbCr, FLEX_FORMAT_YCbCr => true
  | FLEX_FORMAT_other, FLEX_FORMAT_other => true
  | _, _ => false
  end.

Definition error_eqb (a b : gralloc1_error_t) : bool :=
  match a, b with
  | GRALLOC1_ERROR_NONE, GRALLOC1_ERROR_NONE => true
  | GRALLOC1_ERROR_UNSUPPORTED, GRALLOC1_ERROR_UNSUPPORTED => true
  | GRALLOC1_ERROR_device c, GRALLOC1_ERROR_device d => Z.eqb c d
  | _, _ => false
  end.

(** Addresses, file descriptors and handles are integers. *)
Definition address := Z.
Definition buffer_handle_t := Z.

(** Modelled from the spec: android_flex_plane_t is declared in
    system/graphics.h, which is not under src/.  The spec's Plane has a
    component identifier, bits-per-component, bits-used, a horizontal and a
    vertical increment and a starting address; the field names are those the
    source reads.  The four int32_t fields are integers; [int32_plane] states
    their range. *)
Record android_flex_plane_t : Type := {
  top_left : address;
  component : android_flex_component_t;
  bits_per_component : Z;
  bits_used : Z;
  h_increment : Z;
  v_increment : Z
}.

Definition int32_range (x : Z) : Prop := - 2 ^ 31 <= x < 2 ^ 31.

Definition int32_plane (p : android_flex_plane_t) : Prop :=
  int32_range (bits_per_component p) /\ int32_range (bits_used p) /\
  int32_range (h_increment p) /\ int32_range (v_increment p).

(** What std::vector::resize leaves in a fresh slot: all fields zero, and a
    zero component identifier is none of Y, Cb, Cr. *)
Definition zero_plane : android_flex_plane_t :=
  {| top_left := 0; component := FLEX_COMPONENT_other;
     bits_per_component := 0; bits_used := 0;
     h_increment := 0; v_increment := 0 |}.

(** Modelled from the spec: android_flex_layout_t is declared in
    system/graphics.h, which is not under src/.  The spec's FlexLayout is an
    ordered collection of planes with an overall format tag; the field names
    are those the source sets, and [planes] is the array the pointer field
    refers to. *)
Record android_flex_layout_t : Type := {
  format : android_flex_format_t;
  num_planes : N;
  planes : list android_flex_plane_t
}.

(** Gralloc2::FlexLayout, as the mapper fills it. *)
Record Gralloc2_FlexLayout : Type := {
  layout_format : android_flex_format_t;
  layout_planes : list android_flex_plane_t
}.

(** Modelled from the spec: struct android_ycbcr is declared in
    system/graphics.h, which is not under src/.  The spec's YCbCrDescriptor
    has three plane start addresses and three sizes; the field names are those
    the source writes. *)
Record android_ycbcr : Type := {
  y : address;
  cb : address;
  cr : address;
  ystride : Z;
  cstride : Z;
  chroma_step : Z
}.

(** Modelled from the spec: ui/Rect.h is not under src/.  The spec speaks of
    a rectangular region; the record has what asGralloc1Rect reads of it, the
    fields left and top and the results of width() and height(). *)
Record Rect : Type := {
  left : Z;
  top : Z;
  width : Z;
  height : Z
}.

(** gralloc1_rect_t, with the four fields asGralloc1Rect sets. *)
Record gralloc1_rect_t : Type := {
  gralloc1_left : Z;
  gralloc1_top : Z;
  gralloc1_width : Z;
  gralloc1_height : Z
}.

Definition asGralloc1Rect (rect : Rect) : gralloc1_rect_t :=
  {| gralloc1_left := left rect;
     gralloc1_top := top rect;
     gralloc1_width := width rect;
     gralloc1_height := height rect |}.

(** ** The backends *)

(** Modelled from the spec: Gralloc2::Mapper and Gralloc1::Device are declared
    in ui/GrallocMapper.h and ui/Gralloc1.h, which are not under src/.  The
    spec's input interface is a lock for flexible access that returns a
    FlexLayout or an error code, and an unlock that returns a fence
    descriptor.  [mMapper_lock] is the flex overload of Mapper::lock; the
    mDevice fields are the Device methods lockAsyncYCbCr and unlockAsync
    call, with mDevice->hasCapability(GRALLOC1_CAPABILITY_ON_ADAPTER) as a
    flag.  A response is the returned error with the value left behind the
    out-pointer; for unlock that value is the descriptor fence->dup()
    gives. *)
Record Backend : Type := {
  mMapper_valid : bool;
  mMapper_lock :
    buffer_handle_t -> Z -> Z -> gralloc1_rect_t -> Z ->
    gralloc1_error_t * Gralloc2_FlexLayout;
  mMapper_unlock : buffer_handle_t -> Z;
  mDevice_hasCapability_ON_ADAPTER : bool;
  mDevice_lockYCbCr :
    buffer_handle_t -> Z -> Z -> gralloc1_rect_t -> android_ycbcr -> Z ->
    gralloc1_error_t * android_ycbcr;
  mDevice_getNumFlexPlanes : buffer_handle_t -> gralloc1_error_t * N;
  mDevice_lockFlex :
    buffer_handle_t -> Z -> Z -> gralloc1_rect_t -> android_flex_layout_t -> Z ->
    gralloc1_error_t * android_flex_layout_t;
  mDevice_unlock : buffer_handle_t -> gralloc1_error_t * Z
}.

(** Calls that leave the process, in the order they are made. *)
Inductive Call : Type :=
| MapperLock (handle : buffer_handle_t)
| DeviceLockYCbCr (handle : buffer_handle_t)
| DeviceGetNumFlexPlanes (handle : buffer_handle_t)
| DeviceLockFlex (handle : buffer_handle_t)
| MapperUnlock (handle : buffer_handle_t)
| DeviceUnlock (handle : buffer_handle_t)
| SyncWait (fd : Z)
| Close (fd : Z).

(** The state lockAsyncYCbCr works on: the record behind the caller's
    android_ycbcr pointer, and the calls made so far. *)
Record World : Type := {
  ycbcr : android_ycbcr;
  calls : list Call
}.

Definition log (c : Call) (w : World) : World :=
  {| ycbcr := ycbcr w; calls := calls w ++ [c] |}.

Definition store (out : android_ycbcr) (w : World) : World :=
  {| ycbcr := out; calls := calls w |}.

(** Whether a call is an unlock of [handle], by either backend. *)
Definition is_unlock (handle : buffer_handle_t) (c : Call) : bool :=
  match c with
  | MapperUnlock h | DeviceUnlock h => Z.eqb h handle
  | _ => false
  end.

Definition unlocks (handle : buffer_handle_t) (cs : list Call) : nat :=
  length (filter (is_unlock handle) cs).

(** ** unlockAsync and unlock *)

(** unlockAsync(handle, &fenceFd): the result and the value left in
    fenceFd. *)
Definition unlockAsync (be : Backend) (handle : buffer_handle_t) (fenceFd : Z)
    (w : World) : gralloc1_error_t * Z * World :=
  if mMapper_valid be then
    (GRALLOC1_ERROR_NONE, mMapper_unlock be handle, log (MapperUnlock handle) w)
  else
    let '(error, dupFd) := mDevice_unlock be handle in
    let w1 := log (DeviceUnlock handle) w in
    if negb (error_eqb error GRALLOC1_ERROR_NONE) then (error, fenceFd, w1)
    else (error, dupFd, w1).

Definition unlock (be : Backend) (handle : buffer_handle_t) (w : World)
    : gralloc1_error_t * World :=
  let fenceFd := -1 in
  let '(error, fenceFd, w1) := unlockAsync be handle fenceFd w in
  if error_eqb error GRALLOC1_ERROR_NONE then
    (error, log (Close fenceFd) (log (SyncWait fenceFd) w1))
  else (error, w1).

(** ** isValidYCbCrPlane *)

Definition isValidYCbCrPlane (plane : android_flex_plane_t) : bool :=
  if negb (bits_per_component plane =? 8) then false
  else if negb (bits_used plane =? 8) then false
  else
    let hasValidIncrement :=
      (h_increment plane =? 1) ||
      (negb (component_eqb (component plane) FLEX_COMPONENT_Y) &&
       (h_increment plane =? 2)) in
    let hasValidIncrement := hasValidIncrement && (0 <? v_increment plane) in
    if negb hasValidIncrement then false
    else true.

(** ** lockAsyncYCbCr *)

(** The "Find planes" loop.  An iterator into the vector is its index;
    planes.cend() is the length.  [planeIter] is the index of the head of
    [rest]. *)
Fixpoint findPlanes_from (rest : list android_flex_plane_t) (planeIter : nat)
    (yPlane cbPlane crPlane : nat) : nat * nat * nat :=
  match rest with
  | [] => (yPlane, cbPlane, crPlane)
  | p :: rest' =>
      if component_eqb (component p) FLEX_COMPONENT_Y then
        findPlanes_from rest' (S planeIter) planeIter cbPlane crPlane
      else if component_eqb (component p) FLEX_COMPONENT_Cb then
        findPlanes_from rest' (S planeIter) yPlane planeIter crPlane
      else if component_eqb (component p) FLEX_COMPONENT_Cr then
        findPlanes_from rest' (S planeIter) yPlane cbPlane planeIter
      else
        findPlanes_from rest' (S planeIter) yPlane cbPlane crPlane
  end.

Definition findPlanes (planes : list android_flex_plane_t) : nat * nat * nat :=
  let cend := length planes in
  findPlanes_from planes 0%nat cend cend cend.

(** Dereferencing an iterator. *)
Definition deref (planes : list android_flex_plane_t) (it : nat)
    : android_flex_plane_t :=
  nth it planes zero_plane.

(** "unlock(handle); return GRALLOC1_ERROR_UNSUPPORTED;" *)
Definition unlock_unsupported (be : Backend) (handle : buffer_handle_t)
    (w : World) : gralloc1_error_t * World :=
  (GRALLOC1_ERROR_UNSUPPORTED, snd (unlock be handle w)).

(** What the part of lockAsyncYCbCr before "if (error != GRALLOC1_ERROR_NONE)"
    ends in: a return statement, or the locals error, flexLayout and planes. *)
Inductive LockOutcome : Type :=
| Returned (error : gralloc1_error_t) (w : World)
| Locked (error : gralloc1_error_t) (flexLayout : android_flex_layout_t)
         (planes : list android_flex_plane_t) (w : World).

(** The contents of a vector of [n] slots after a callee has written [written]
    through its data pointer. *)
Definition written_into (n : nat) (written : list android_flex_plane_t)
    : list android_flex_plane_t :=
  firstn n (written ++ repeat zero_plane n).

Section Mapper.

(** Width of size_t on the target. *)
Variable size_t_bits : Z.

Definition static_cast_size_t (x : Z) : Z := x mod 2 ^ size_t_bits.

(** "Pack plane data into android_ycbcr struct". *)
Definition packYCbCr (yPlane cbPlane crPlane : android_flex_plane_t)
    : android_ycbcr :=
  {| y := top_left yPlane;
     cb := top_left cbPlane;
     cr := top_left crPlane;
     ystride := static_cast_size_t (v_increment yPlane);
     cstride := static_cast_size_t (v_increment cbPlane);
     chroma_step := static_cast_size_t (h_increment cbPlane) |}.

(** lockAsyncYCbCr up to the end of the if/else on mMapper->valid(). *)
Definition lockFlexLayout (be : Backend) (handle : buffer_handle_t)
    (usage : Z) (bounds : Rect) (fenceFd : Z) (w : World) : LockOutcome :=
  let accessRegion := asGralloc1Rect bounds in
  if mMapper_valid be then
    let '(error, layout) :=
      mMapper_lock be handle usage usage accessRegion fenceFd in
    let w1 := log (MapperLock handle) w in
    if error_eqb error GRALLOC1_ERROR_NONE then
      let planes := layout_planes layout in
      Locked error
        {| format := layout_format layout;
           num_planes := (N.of_nat (length planes) mod 2 ^ 32)%N;
           planes := planes |}
        planes w1
    else
      Locked error
        {| format := FLEX_FORMAT_INVALID; num_planes := 0%N; planes := [] |}
        [] w1
  else
    if mDevice_hasCapability_ON_ADAPTER be then
      let '(error, out) :=
        mDevice_lockYCbCr be handle usage usage accessRegion (ycbcr w)
          fenceFd in
      Returned error (log (DeviceLockYCbCr handle) (store out w))
    else
      let '(error, numPlanes) := mDevice_getNumFlexPlanes be handle in
      let w1 := log (DeviceGetNumFlexPlanes handle) w in
      if negb (error_eqb error GRALLOC1_ERROR_NONE) then Returned error w1
      else if (numPlanes <? 3)%N then Returned GRALLOC1_ERROR_UNSUPPORTED w1
      else
        (* planes.resize(numPlanes); flexLayout.planes = planes.data() *)
        let flexLayout :=
          {| format := FLEX_FORMAT_INVALID; num_planes := numPlanes;
             planes := repeat zero_plane (N.to_nat numPlanes) |} in
        let '(error, flexLayout) :=
          mDevice_lockFlex be handle usage usage accessRegion flexLayout
            fenceFd in
        Locked error flexLayout
          (written_into (N.to_nat numPlanes) (planes flexLayout))
          (log (DeviceLockFlex handle) w1).

(** lockAsyncYCbCr from "if (flexLayout.format != FLEX_FORMAT_YCbCr)" to its
    last line, on the locals left by the lock. *)
Definition convertFlexLayout (be : Backend) (handle : buffer_handle_t)
    (error : gralloc1_error_t) (flexLayout : android_flex_layout_t)
    (planes : list android_flex_plane_t) (w : World)
    : gralloc1_error_t * World :=
  if negb (format_eqb (format flexLayout) FLEX_FORMAT_YCbCr) then
    unlock_unsupported be handle w
  else
    let '(yPlane, cbPlane, crPlane) := findPlanes planes in
    let cend := length planes in
    if (yPlane =? cend)%nat then unlock_unsupported be handle w
    else if (cbPlane =? cend)%nat then unlock_unsupported be handle w
    else if (crPlane =? cend)%nat then unlock_unsupported be handle w
    else if negb (isValidYCbCrPlane (deref planes yPlane)) then
      unlock_unsupported be handle w
    else if negb (isValidYCbCrPlane (deref planes cbPlane)) then
      unlock_unsupported be handle w
    else if negb (isValidYCbCrPlane (deref planes crPlane)) then
      unlock_unsupported be handle w
    else if negb (v_increment (deref planes cbPlane) =?
                  v_increment (deref planes crPlane)) then
      unlock_unsupported be handle w
    else if negb (h_increment (deref planes cbPlane) =?
                  h_increment (deref planes crPlane)) then
      unlock_unsupported be handle w
    else
      (error,
       store (packYCbCr (deref planes yPlane) (deref planes cbPlane)
                (deref planes crPlane)) w).

Definition lockAsyncYCbCr (be : Backend) (handle : buffer_handle_t)
    (usage : Z) (bounds : Rect) (fenceFd : Z) (w : World)
    : gralloc1_error_t * World :=
  match lockFlexLayout be handle usage bounds fenceFd w with
  | Returned error w1 => (error, w1)
  | Locked error flexLayout planes w1 =>
      if negb (error_eqb error GRALLOC1_ERROR_NONE) then (error, w1)
      else convertFlexLayout be handle error flexLayout planes w1
  end.

End Mapper.

(** ** The conversion by selected planes *)

(** The last plane of the list that bears component [c]. *)
Definition last_seen (c : android_flex_component_t)
    (planes : list android_flex_plane_t) : option android_flex_plane_t :=
  find (fun p => component_eqb (component p) c) (rev planes).

(** The position of the last plane of [rest] that bears component [c], when
    the head of [rest] is at position [i]. *)
Fixpoint last_pos_from (c : android_flex_component_t)
    (rest : list android_flex_plane_t) (i : nat) : option nat :=
  match rest with
  | [] => None
  | p :: rest' =>
      match last_pos_from c rest' (S i) with
      | Some j => Some j
      | None => if component_eqb (component p) c then Some i else None
      end
  end.

(** The per-plane validation: 8 bits per component, 8 bits used, a strictly
    positive vertical increment, and a horizontal increment of 1 for the luma
    plane, of 1 or 2 for a chroma plane. *)
Definition usable_8bit_plane (p : android_flex_plane_t) : Prop :=
  bits_per_component p = 8 /\ bits_used p = 8 /\ 0 < v_increment p /\
  (component p = FLEX_COMPONENT_Y -> h_increment p = 1) /\
  (component p = FLEX_COMPONENT_Cb \/ component p = FLEX_COMPONENT_Cr ->
   h_increment p = 1 \/ h_increment p = 2).

(** The resolver by its six steps: the format tag, the last plane of each
    of Y, Cb and Cr, the per-plane validation, the agreement of the chroma
    planes, and the descriptor, or nothing. *)
Definition FlexYCbCrResolver (size_t_bits : Z) (fmt : android_flex_format_t)
    (planes : list android_flex_plane_t) : option android_ycbcr :=
  match fmt with
  | FLEX_FORMAT_YCbCr =>
      match last_seen FLEX_COMPONENT_Y planes,
            last_seen FLEX_COMPONENT_Cb planes,
            last_seen FLEX_COMPONENT_Cr planes with
      | Some yP, Some cbP, Some crP =>
          if isValidYCbCrPlane yP && isValidYCbCrPlane cbP &&
             isValidYCbCrPlane crP &&
             (v_increment cbP =? v_increment crP) &&
             (h_increment cbP =? h_increment crP)
          then Some (packYCbCr size_t_bits yP cbP crP)
          else None
      | _, _, _ => None
      end
  | _ => None
  end.

Definition from_option (d : nat) (o : option nat) : nat :=
  match o with
  | Some j => j
  | None => d
  end.

(** The plane an iterator selects, if it is not cend(). *)
Definition selected (planes : list android_flex_plane_t) (it : nat)
    : option android_flex_plane_t :=
  if (it =? length planes)%nat then None else Some (deref planes it).

(** What it means for an iterator to stand for component [c]: it is cend()
    and no plane bears [c], or it points at a plane bearing [c] after which
    no plane bears [c]. *)
Definition none_bearing (c : android_flex_component_t)
    (planes : list android_flex_plane_t) : Prop :=
  forall p, In p planes -> component p <> c.

Definition last_bearing (c : android_flex_component_t)
    (planes : list android_flex_plane_t) (it : nat) : Prop :=
  (it < length planes)%nat /\
  component (deref planes it) = c /\
  forall j, (it < j < length planes)%nat -> component (deref planes j) <> c.

Definition iterator_for (c : android_flex_component_t)
    (planes : list android_flex_plane_t) (it : nat) : Prop :=
  (it = length planes /\ none_bearing c planes) \/ last_bearing c planes it.

(** ** A concrete layout and concrete backends *)

Definition plane8 (c : android_flex_component_t) (h v : Z) (addr : address)
    : android_flex_plane_t :=
  {| top_left := addr; component := c;
     bits_per_component := 8; bits_used := 8;
     h_increment := h; v_increment := v |}.

(** Y(8,8,h=1,v=64), Cb(8,8,h=2,v=32), Cr(8,8,h=2,v=32): semi-planar 4:2:0. *)
Definition nv12_planes : list android_flex_plane_t :=
  [plane8 FLEX_COMPONENT_Y 1 64 4096;
   plane8 FLEX_COMPONENT_Cb 2 32 8192;
   plane8 FLEX_COMPONENT_Cr 2 32 8193].

(** The same with a Cb step of 1 against a Cr step of 2. *)
Definition mixed_step_planes : list android_flex_plane_t :=
  [plane8 FLEX_COMPONENT_Y 1 64 4096;
   plane8 FLEX_COMPONENT_Cb 1 32 8192;
   plane8 FLEX_COMPONENT_Cr 2 32 8193].

(** A Cr plane with 10 bits used. *)
Definition deep_cr_planes : list android_flex_plane_t :=
  [plane8 FLEX_COMPONENT_Y 1 64 4096;
   plane8 FLEX_COMPONENT_Cb 2 32 8192;
   {| top_left := 8193; component := FLEX_COMPONENT_Cr;
      bits_per_component := 8; bits_used := 10;
      h_increment := 2; v_increment := 32 |}].

(** Two luma planes; the second is the one that counts. *)
Definition two_luma_planes : list android_flex_plane_t :=
  plane8 FLEX_COMPONENT_Y 1 128 1024 :: nv12_planes.

Definition layout_of (fmt : android_flex_format_t)
    (planes : list android_flex_plane_t) : android_flex_layout_t :=
  {| format := fmt; num_planes := N.of_nat (length planes);
     planes := planes |}.

(** A Gralloc2 mapper that answers every lock with the given layout. *)
Definition mapper_backend (fmt : android_flex_format_t)
    (planes : list android_flex_plane_t) : Backend :=
  {| mMapper_valid := true;
     mMapper_lock := fun _ _ _ _ _ =>
       (GRALLOC1_ERROR_NONE,
        {| layout_format := fmt; layout_planes := planes |});
     mMapper_unlock := fun _ => 7;
     mDevice_hasCapability_ON_ADAPTER := false;
     mDevice_lockYCbCr := fun _ _ _ _ out _ => (GRALLOC1_ERROR_device 6, out);
     mDevice_getNumFlexPlanes := fun _ => (GRALLOC1_ERROR_device 6, 0%N);
     mDevice_lockFlex := fun _ _ _ _ l _ => (GRALLOC1_ERROR_device 6, l);
     mDevice_unlock := fun _ => (GRALLOC1_ERROR_device 6, -1) |}.

(** A Gralloc1 device without the adapter capability that writes the given
    planes and format on lockFlex. *)
Definition device_backend (fmt : android_flex_format_t)
    (planes : list android_flex_plane_t) : Backend :=
  {| mMapper_valid := false;
     mMapper_lock := fun _ _ _ _ _ =>
       (GRALLOC1_ERROR_device 6,
        {| layout_format := FLEX_FORMAT_INVALID; layout_planes := [] |});
     mMapper_unlock := fun _ => -1;
     mDevice_hasCapability_ON_ADAPTER := false;
     mDevice_lockYCbCr := fun _ _ _ _ out _ => (GRALLOC1_ERROR_device 6, out);
     mDevice_getNumFlexPlanes := fun _ =>
       (GRALLOC1_ERROR_NONE, N.of_nat (length planes));
     mDevice_lockFlex := fun _ _ _ _ l _ =>
       (GRALLOC1_ERROR_NONE,
        {| format := fmt; num_planes := num_planes l; planes := planes |});
     mDevice_unlock := fun _ => (GRALLOC1_ERROR_NONE, 9) |}.

Definition full_bounds : Rect :=
  {| left := 0; top := 0; width := 64; height := 64 |}.

Definition blank_ycbcr : android_ycbcr :=
  {| y := 0; cb := 0; cr := 0; ystride := 0; cstride := 0; chroma_step := 0 |}.

Definition fresh_world : World := {| ycbcr := blank_ycbcr; calls := [] |}.

(** ** lockYCbCr and the bookkeeping of calls *)

(** lockYCbCr: lockAsyncYCbCr with a fence of -1. *)
Definition lockYCbCr (size_t_bits : Z) (be : Backend)
    (handle : buffer_handle_t) (usage : Z) (bounds : Rect) (w : World)
    : gralloc1_error_t * World :=
  lockAsyncYCbCr size_t_bits be handle usage bounds (-1) w.

(** Whether a call is a lock of [handle], by either backend. *)
Definition is_lock (handle : buffer_handle_t) (c : Call) : bool :=
  match c with
  | MapperLock h | DeviceLockYCbCr h | DeviceLockFlex h => Z.eqb h handle
  | _ => false
  end.

Definition locks (handle : buffer_handle_t) (cs : list Call) : nat :=
  length (filter (is_lock handle) cs).

Definition is_mapper_call (c : Call) : bool :=
  match c with
  | MapperLock _ | MapperUnlock _ => true
  | _ => false
  end.

Definition is_device_call (c : Call) : bool :=
  match c with
  | DeviceLockYCbCr _ | DeviceGetNumFlexPlanes _ | DeviceLockFlex _
  | DeviceUnlock _ => true
  | _ => false
  end.

Definition mapper_calls (cs : list Call) : nat :=
  length (filter is_mapper_call cs).

Definition device_calls (cs : list Call) : nat :=
  length (filter is_device_call cs).

(** The calls one unlock makes: the backend's unlock and, when it reports no
    error, sync_wait and close on the descriptor it gave. *)
Definition unlock_calls (be : Backend) (handle : buffer_handle_t)
    : list Call :=
  if mMapper_valid be then
    [MapperUnlock handle; SyncWait (mMapper_unlock be handle);
     Close (mMapper_unlock be handle)]
  else if error_eqb (fst (mDevice_unlock be handle)) GRALLOC1_ERROR_NONE then
    [DeviceUnlock handle; SyncWait (snd (mDevice_unlock be handle));
     Close (snd (mDevice_unlock be handle))]
  else [DeviceUnlock handle].

(** Each of Y, Cb and Cr is borne by at most one plane of the list. *)
Definition one_plane_per_component (planes : list android_flex_plane_t)
    : Prop :=
  forall p q, In p planes -> In q planes ->
    component p = component q ->
    component p <> FLEX_COMPONENT_other -> p = q.

(** A Gralloc1 device behind the gralloc0 adapter: lockYCbCr answers with
    the given error and record. *)
Definition adapter_backend (e : gralloc1_error_t) (out : android_ycbcr)
    : Backend :=
  {| mMapper_valid := false;
     mMapper_lock := fun _ _ _ _ _ =>
       (GRALLOC1_ERROR_device 6,
        {| layout_format := FLEX_FORMAT_INVALID; layout_planes := [] |});
     mMapper_unlock := fun _ => -1;
     mDevice_hasCapability_ON_ADAPTER := true;
     mDevice_lockYCbCr := fun _ _ _ _ _ _ => (e, out);
     mDevice_getNumFlexPlanes := fun _ => (GRALLOC1_ERROR_device 6, 0%N);
     mDevice_lockFlex := fun _ _ _ _ l _ => (GRALLOC1_ERROR_device 6, l);
     mDevice_unlock := fun _ => (GRALLOC1_ERROR_NONE, 9) |}.

(** A Gralloc1 device that locks the given planes but whose unlock fails. *)
Definition stuck_device_backend (fmt : android_flex_format_t)
    (planes : list android_flex_plane_t) (e : gralloc1_error_t) : Backend :=
  {| mMapper_valid := false;
     mMapper_lock := fun _ _ _ _ _ =>
       (GRALLOC1_ERROR_device 6,
        {| layout_format := FLEX_FORMAT_INVALID; layout_planes := [] |});
     mMapper_unlock := fun _ => -1;
     mDevice_hasCapability_ON_ADAPTER := false;
     mDevice_lockYCbCr := fun _ _ _ _ out _ => (GRALLOC1_ERROR_device 6, out);
     mDevice_getNumFlexPlanes := fun _ =>
       (GRALLOC1_ERROR_NONE, N.of_nat (length planes));
     mDevice_lockFlex := fun _ _ _ _ l _ =>
       (GRALLOC1_ERROR_NONE,
        {| format := fmt; num_planes := num_planes l; planes := planes |});
     mDevice_unlock := fun _ => (e, 11) |}.

(** A Gralloc1 device that reports [n] planes and writes the given ones. *)
Definition sparse_device_backend (fmt : android_flex_format_t)
    (planes : list android_flex_plane_t) (n : N) : Backend :=
  {| mMapper_valid := false;
     mMapper_lock := fun _ _ _ _ _ =>
       (GRALLOC1_ERROR_device 6,
        {| layout_format := FLEX_FORMAT_INVALID; layout_planes := [] |});
     mMapper_unlock := fun _ => -1;
     mDevice_hasCapability_ON_ADAPTER := false;
     mDevice_lockYCbCr := fun _ _ _ _ out _ => (GRALLOC1_ERROR_device 6, out);
     mDevice_getNumFlexPlanes := fun _ => (GRALLOC1_ERROR_NONE, n);
     mDevice_lockFlex := fun _ _ _ _ l _ =>
       (GRALLOC1_ERROR_NONE,
        {| format := fmt; num_planes := num_planes l; planes := planes |});
     mDevice_unlock := fun _ => (GRALLOC1_ERROR_NONE, 9) |}.

(** The planes of [nv12_planes] with the chroma planes first. *)
Definition nv21_order_planes : list android_flex_plane_t :=
  [plane8 FLEX_COMPONENT_Cr 2 32 8193;
   plane8 FLEX_COMPONENT_Cb 2 32 8192;
   plane8 FLEX_COMPONENT_Y 1 64 4096].

(** ** Equality tests *)

Lemma component_eqb_eq (a b : android_flex_component_t) :
  component_eqb a b = true <-> a = b.
Proof. destruct a, b; simpl; split; congruence. Qed.

Lemma component_eqb_neq (a b : android_flex_component_t) :
  component_eqb a b = false <-> a <> b.
Proof. destruct a, b; simpl; split; congruence. Qed.

Lemma format_eqb_eq (a b : android_flex_format_t) :
  format_eqb a b = true <-> a = b.
Proof. destruct a, b; simpl; split; congruence. Qed.

Lemma error_eqb_eq (a b : gralloc1_error_t) :
  error_eqb a b = true <-> a = b.
Proof.
  destruct a, b; simpl; split; try congruence.
  - intros H. apply Z.eqb_eq in H. congruence.
  - intros H. injection H as ->. apply Z.eqb_refl.
Qed.

(** ** The plane scan *)

Lemma findPlanes_from_last_pos (rest : list android_flex_plane_t) :
  forall i y0 cb0 cr0,
    findPlanes_from rest i y0 cb0 cr0 =
    (from_option y0 (last_pos_from FLEX_COMPONENT_Y rest i),
     from_option cb0 (last_pos_from FLEX_COMPONENT_Cb rest i),
     from_option cr0 (last_pos_from FLEX_COMPONENT_Cr rest i)).
Proof.
  induction rest as [|p rest IH]; intros i y0 cb0 cr0; simpl.
  - reflexivity.
  - destruct (component p); simpl; rewrite IH;
      destruct (last_pos_from FLEX_COMPONENT_Y rest (S i));
      destruct (last_pos_from FLEX_COMPONENT_Cb rest (S i));
      destruct (last_pos_from FLEX_COMPONENT_Cr rest (S i));
      reflexivity.
Qed.

Lemma last_pos_from_bounds (c : android_flex_component_t)
    (rest : list android_flex_plane_t) :
  forall i j, last_pos_from c rest i = Some j ->
    (i <= j < i + length rest)%nat.
Proof.
  induction rest as [|p rest IH]; intros i j; simpl.
  - discriminate.
  - destruct (last_pos_from c rest (S i)) as [k|] eqn:E.
    + intros [= <-]. apply IH in E. lia.
    + destruct (component_eqb (component p) c); [|discriminate].
      intros [= <-]. lia.
Qed.

Lemma find_app_plane (f : android_flex_plane_t -> bool)
    (l1 l2 : list android_flex_plane_t) :
  find f (l1 ++ l2) =
  match find f l1 with
  | Some q => Some q
  | None => find f l2
  end.
Proof.
  induction l1 as [|a l1 IH]; simpl; [reflexivity|].
  destruct (f a); [reflexivity|exact IH].
Qed.

Lemma last_seen_app (c : android_flex_component_t)
    (l1 l2 : list android_flex_plane_t) :
  last_seen c (l1 ++ l2) =
  match last_seen c l2 with
  | Some q => Some q
  | None => last_seen c l1
  end.
Proof. unfold last_seen. rewrite rev_app_distr. apply find_app_plane. Qed.

Lemma last_seen_cons (c : android_flex_component_t)
    (p : android_flex_plane_t) (rest : list android_flex_plane_t) :
  last_seen c (p :: rest) =
  match last_seen c rest with
  | Some q => Some q
  | None => if component_eqb (component p) c then Some p else None
  end.
Proof.
  change (p :: rest) with ([p] ++ rest). rewrite last_seen_app.
  destruct (last_seen c rest); [reflexivity|].
  unfold last_seen; simpl. destruct (component_eqb (component p) c); reflexivity.
Qed.

Lemma last_seen_last_pos (c : android_flex_component_t)
    (rest : list android_flex_plane_t) :
  forall i,
    last_seen c rest =
    option_map (fun j => nth (j - i) rest zero_plane) (last_pos_from c rest i).
Proof.
  induction rest as [|p rest IH]; intros i.
  - reflexivity.
  - rewrite last_seen_cons. simpl last_pos_from.
    rewrite (IH (S i)).
    destruct (last_pos_from c rest (S i)) as [j|] eqn:E; simpl.
    + apply last_pos_from_bounds in E.
      replace (j - i)%nat with (S (j - S i)) by lia. reflexivity.
    + destruct (component_eqb (component p) c); simpl; [|reflexivity].
      rewrite Nat.sub_diag. reflexivity.
Qed.

Lemma selected_last_pos (c : android_flex_component_t)
    (planes : list android_flex_plane_t) :
  selected planes
    (from_option (length planes) (last_pos_from c planes 0)) =
  last_seen c planes.
Proof.
  rewrite (last_seen_last_pos c planes 0). unfold selected, deref.
  destruct (last_pos_from c planes 0) as [j|] eqn:E; simpl.
  - apply last_pos_from_bounds in E.
    destruct (Nat.eqb_spec j (length planes)); [lia|].
    rewrite Nat.sub_0_r. reflexivity.
  - rewrite Nat.eqb_refl. reflexivity.
Qed.

Lemma findPlanes_selected (planes : list android_flex_plane_t)
    (yPlane cbPlane crPlane : nat) :
  findPlanes planes = (yPlane, cbPlane, crPlane) ->
  selected planes yPlane = last_seen FLEX_COMPONENT_Y planes /\
  selected planes cbPlane = last_seen FLEX_COMPONENT_Cb planes /\
  selected planes crPlane = last_seen FLEX_COMPONENT_Cr planes.
Proof.
  unfold findPlanes. rewrite findPlanes_from_last_pos.
  intros [= <- <- <-]. repeat split; apply selected_last_pos.
Qed.

(** ** The conversion refines the resolver *)

Lemma convertFlexLayout_refines (size_t_bits : Z) (be : Backend)
    (handle : buffer_handle_t) (error : gralloc1_error_t)
    (flexLayout : android_flex_layout_t)
    (planes : list android_flex_plane_t) (w : World) :
  convertFlexLayout size_t_bits be handle error flexLayout planes w =
  match FlexYCbCrResolver size_t_bits (format flexLayout) planes with
  | Some out => (error, store out w)
  | None => unlock_unsupported be handle w
  end.
Proof.
  unfold convertFlexLayout, FlexYCbCrResolver.
  destruct (format flexLayout); simpl; try reflexivity.
  destruct (findPlanes planes) as [[yPlane cbPlane] crPlane] eqn:F.
  destruct (findPlanes_selected _ _ _ _ F) as (Hy & Hcb & Hcr).
  rewrite <- Hy, <- Hcb, <- Hcr. unfold selected.
  destruct (yPlane =? length planes)%nat; [reflexivity|].
  destruct (cbPlane =? length planes)%nat; [reflexivity|].
  destruct (crPlane =? length planes)%nat; [reflexivity|].
  destruct (isValidYCbCrPlane (deref planes yPlane)); [|reflexivity].
  destruct (isValidYCbCrPlane (deref planes cbPlane)); [|reflexivity].
  destruct (isValidYCbCrPlane (deref planes crPlane)); [|reflexivity].
  simpl.
  destruct (v_increment (deref planes cbPlane) =?
            v_increment (deref planes crPlane)); [|reflexivity].
  destruct (h_increment (deref planes cbPlane) =?
            h_increment (deref planes crPlane)); reflexivity.
Qed.

(** ** unlock *)

Lemma unlocks_app (handle : buffer_handle_t) (cs ds : list Call) :
  unlocks handle (cs ++ ds) = (unlocks handle cs + unlocks handle ds)%nat.
Proof. unfold unlocks. rewrite filter_app, length_app. reflexivity. Qed.

Lemma unlock_ycbcr (be : Backend) (handle : buffer_handle_t) (w : World) :
  ycbcr (snd (unlock be handle w)) = ycbcr w.
Proof.
  unfold unlock, unlockAsync.
  destruct (mMapper_valid be); simpl; [reflexivity|].
  destruct (mDevice_unlock be handle) as [error dupFd].
  destruct error; reflexivity.
Qed.

Lemma unlock_unlocks (be : Backend) (handle h : buffer_handle_t) (w : World) :
  unlocks h (calls (snd (unlock be handle w))) =
  ((if Z.eqb handle h then 1 else 0) + unlocks h (calls w))%nat.
Proof.
  unfold unlock, unlockAsync.
  destruct (mMapper_valid be); simpl.
  - rewrite !unlocks_app. unfold unlocks at 2 3 4. simpl.
    destruct (handle =? h); simpl; lia.
  - destruct (mDevice_unlock be handle) as [error dupFd].
    destruct error; simpl; rewrite !unlocks_app; unfold unlocks; simpl;
      destruct (handle =? h); simpl; lia.
Qed.

(** ** The lock *)

Lemma lockFlexLayout_Locked (be : Backend)
    (handle : buffer_handle_t) (usage : Z) (bounds : Rect) (fenceFd : Z)
    (w w1 : World) (error : gralloc1_error_t)
    (flexLayout : android_flex_layout_t)
    (planes : list android_flex_plane_t) :
  lockFlexLayout be handle usage bounds fenceFd w =
    Locked error flexLayout planes w1 ->
  ycbcr w1 = ycbcr w /\
  (forall h, unlocks h (calls w1) = unlocks h (calls w)) /\
  (mMapper_valid be = true \/ mDevice_hasCapability_ON_ADAPTER be = false).
Proof.
  unfold lockFlexLayout.
  destruct (mMapper_valid be).
  - destruct (mMapper_lock be handle usage usage _ fenceFd) as [e l].
    destruct (error_eqb e GRALLOC1_ERROR_NONE); intros [= <- <- <- <-]; simpl;
      (split; [reflexivity|]); (split; [|now left]); intros h;
      rewrite unlocks_app; unfold unlocks; simpl; lia.
  - destruct (mDevice_hasCapability_ON_ADAPTER be).
    + destruct (mDevice_lockYCbCr be handle usage usage _ (ycbcr w) fenceFd).
      discriminate.
    + destruct (mDevice_getNumFlexPlanes be handle) as [e numPlanes].
      destruct (negb (error_eqb e GRALLOC1_ERROR_NONE)); [discriminate|].
      destruct (numPlanes <? 3)%N; [discriminate|].
      destruct (mDevice_lockFlex _ _ _ _ _ _ _) as [e' fl].
      intros [= <- <- <- <-]; simpl.
      split; [reflexivity|]. split; [|now right]. intros h.
      rewrite !unlocks_app; unfold unlocks; simpl; lia.
Qed.

Lemma lockFlexLayout_Returned (be : Backend)
    (handle : buffer_handle_t) (usage : Z) (bounds : Rect) (fenceFd : Z)
    (w w1 : World) (error : gralloc1_error_t) :
  mMapper_valid be = true \/ mDevice_hasCapability_ON_ADAPTER be = false ->
  lockFlexLayout be handle usage bounds fenceFd w = Returned error w1 ->
  ycbcr w1 = ycbcr w /\ error <> GRALLOC1_ERROR_NONE.
Proof.
  unfold lockFlexLayout. intros Hpath.
  destruct (mMapper_valid be).
  - destruct (mMapper_lock be handle usage usage _ fenceFd) as [e l].
    destruct (error_eqb e GRALLOC1_ERROR_NONE); discriminate.
  - destruct Hpath as [Hpath|Hpath]; [discriminate|]. rewrite Hpath.
    destruct (mDevice_getNumFlexPlanes be handle) as [e numPlanes].
    destruct (error_eqb e GRALLOC1_ERROR_NONE) eqn:E; simpl.
    + destruct (numPlanes <? 3)%N.
      * intros [= <- <-]. split; [reflexivity|discriminate].
      * destruct (mDevice_lockFlex _ _ _ _ _ _ _) as [e' fl]. discriminate.
    + intros [= <- <-]. split; [reflexivity|].
      intros ->. discriminate.
Qed.

(** ** Facts about the selected planes *)

Lemma last_seen_Some (c : android_flex_component_t)
    (planes : list android_flex_plane_t) (p : android_flex_plane_t) :
  last_seen c planes = Some p -> In p planes /\ component p = c.
Proof.
  unfold last_seen. intros H. apply find_some in H. destruct H as [Hin Hc].
  split.
  - apply in_rev. exact Hin.
  - apply component_eqb_eq. exact Hc.
Qed.

Lemma last_seen_None (c : android_flex_component_t)
    (planes : list android_flex_plane_t) :
  last_seen c planes = None <->
  forall p, In p planes -> component p <> c.
Proof.
  unfold last_seen. split.
  - intros H p Hin. apply component_eqb_neq.
    apply (find_none _ _ H). apply in_rev in Hin. exact Hin.
  - intros H. destruct (find _ (rev planes)) as [q|] eqn:E; [|reflexivity].
    apply find_some in E. destruct E as [Hin Hc].
    apply in_rev in Hin. apply component_eqb_eq in Hc.
    exfalso. exact (H q Hin Hc).
Qed.

Lemma last_seen_split (c : android_flex_component_t)
    (l1 l2 : list android_flex_plane_t) (p : android_flex_plane_t) :
  component p = c -> none_bearing c l2 ->
  last_seen c (l1 ++ p :: l2) = Some p.
Proof.
  intros Hp Hl2. apply last_seen_None in Hl2.
  rewrite last_seen_app, last_seen_cons, Hl2.
  apply component_eqb_eq in Hp. rewrite Hp. reflexivity.
Qed.

Lemma last_seen_drop (c : android_flex_component_t)
    (l1 l2 : list android_flex_plane_t) (p : android_flex_plane_t) :
  component p <> c \/ last_seen c l2 <> None ->
  last_seen c (l1 ++ p :: l2) = last_seen c (l1 ++ l2).
Proof.
  intros H. rewrite !last_seen_app, last_seen_cons.
  destruct (last_seen c l2) as [q|]; [reflexivity|].
  destruct H as [H|H]; [|congruence].
  apply component_eqb_neq in H. rewrite H. reflexivity.
Qed.

Lemma isValidYCbCrPlane_usable (p : android_flex_plane_t) :
  component p <> FLEX_COMPONENT_other ->
  isValidYCbCrPlane p = true <-> usable_8bit_plane p.
Proof.
  intros Hc. unfold isValidYCbCrPlane, usable_8bit_plane.
  destruct (Z.eqb_spec (bits_per_component p) 8) as [Hb|Hb]; simpl;
    [|split; [discriminate|tauto]].
  destruct (Z.eqb_spec (bits_used p) 8) as [Hu|Hu]; simpl;
    [|split; [discriminate|tauto]].
  destruct (Z.ltb_spec 0 (v_increment p)) as [Hv|Hv];
    [rewrite andb_true_r
    |rewrite andb_false_r; simpl; split; [discriminate|lia]].
  destruct (Z.eqb_spec (h_increment p) 1) as [H1|H1];
    destruct (Z.eqb_spec (h_increment p) 2) as [H2|H2];
    destruct (component p); simpl;
    intuition (congruence || lia).
Qed.

Lemma static_cast_size_t_id (size_t_bits x : Z) :
  32 <= size_t_bits -> 0 <= x -> int32_range x ->
  static_cast_size_t size_t_bits x = x.
Proof.
  unfold static_cast_size_t, int32_range. intros Hb H0 Hx.
  apply Z.mod_small. split; [exact H0|].
  apply Z.lt_le_trans with (2 ^ 31); [lia|].
  apply Z.pow_le_mono_r; lia.
Qed.

Lemma unlock_unsupported_fst (be : Backend) (handle : buffer_handle_t)
    (w : World) :
  fst (unlock_unsupported be handle w) = GRALLOC1_ERROR_UNSUPPORTED.
Proof. reflexivity. Qed.

Lemma unlock_unsupported_ycbcr (be : Backend) (handle : buffer_handle_t)
    (w : World) :
  ycbcr (snd (unlock_unsupported be handle w)) = ycbcr w.
Proof. apply unlock_ycbcr. Qed.

Lemma convertFlexLayout_unsupported (size_t_bits : Z) (be : Backend)
    (handle : buffer_handle_t) (error : gralloc1_error_t)
    (flexLayout : android_flex_layout_t)
    (planes : list android_flex_plane_t) (w : World) :
  FlexYCbCrResolver size_t_bits (format flexLayout) planes = None ->
  convertFlexLayout size_t_bits be handle error flexLayout planes w =
  unlock_unsupported be handle w.
Proof. intros H. rewrite convertFlexLayout_refines, H. reflexivity. Qed.

Lemma last_pos_from_None (c : android_flex_component_t)
    (rest : list android_flex_plane_t) :
  forall i, last_pos_from c rest i = None -> none_bearing c rest.
Proof.
  induction rest as [|p rest IH]; intros i; simpl.
  - intros _ q [].
  - destruct (last_pos_from c rest (S i)) eqn:E; [discriminate|].
    destruct (component_eqb (component p) c) eqn:Ec; [discriminate|].
    intros _ q [<-|Hq].
    + apply component_eqb_neq. exact Ec.
    + exact (IH _ E q Hq).
Qed.

Lemma last_pos_from_Some (c : android_flex_component_t)
    (rest : list android_flex_plane_t) :
  forall i j, last_pos_from c rest i = Some j ->
    component (nth (j - i) rest zero_plane) = c /\
    forall k, (j < k < i + length rest)%nat ->
      component (nth (k - i) rest zero_plane) <> c.
Proof.
  induction rest as [|p rest IH]; intros i j; simpl last_pos_from.
  - discriminate.
  - destruct (last_pos_from c rest (S i)) as [j'|] eqn:E.
    + intros [= <-]. pose proof (last_pos_from_bounds _ _ _ _ E) as Hb.
      destruct (IH _ _ E) as [Hc Hlater]. split.
      * replace (j' - i)%nat with (S (j' - S i)) by lia. exact Hc.
      * intros k Hk. simpl in Hk.
        replace (k - i)%nat with (S (k - S i)) by lia.
        apply Hlater. lia.
    + destruct (component_eqb (component p) c) eqn:Ec; [|discriminate].
      intros [= <-]. split.
      * rewrite Nat.sub_diag. apply component_eqb_eq. exact Ec.
      * intros k Hk. simpl in Hk.
        replace (k - i)%nat with (S (k - S i)) by lia. simpl.
        apply (last_pos_from_None _ _ _ E). apply nth_In. lia.
Qed.

Lemma iterator_for_last_pos (c : android_flex_component_t)
    (planes : list android_flex_plane_t) :
  iterator_for c planes
    (from_option (length planes) (last_pos_from c planes 0)).
Proof.
  unfold iterator_for, last_bearing, deref.
  destruct (last_pos_from c planes 0) as [j|] eqn:E; simpl.
  - right. pose proof (last_pos_from_bounds _ _ _ _ E) as Hb.
    destruct (last_pos_from_Some _ _ _ _ E) as [Hc Hlater].
    rewrite Nat.sub_0_r in Hc. split; [lia|]. split; [exact Hc|].
    intros k Hk. specialize (Hlater k). rewrite Nat.sub_0_r in Hlater.
    apply Hlater. lia.
  - left. split; [reflexivity|]. exact (last_pos_from_None _ _ _ E).
Qed.

Lemma FlexYCbCrResolver_Some (size_t_bits : Z) (fmt : android_flex_format_t)
    (planes : list android_flex_plane_t) (out : android_ycbcr) :
  FlexYCbCrResolver size_t_bits fmt planes = Some out ->
  exists yP cbP crP,
    fmt = FLEX_FORMAT_YCbCr /\
    last_seen FLEX_COMPONENT_Y planes = Some yP /\
    last_seen FLEX_COMPONENT_Cb planes = Some cbP /\
    last_seen FLEX_COMPONENT_Cr planes = Some crP /\
    out = packYCbCr size_t_bits yP cbP crP.
Proof.
  unfold FlexYCbCrResolver.
  destruct fmt; try discriminate.
  destruct (last_seen FLEX_COMPONENT_Y planes) as [yP|]; [|discriminate].
  destruct (last_seen FLEX_COMPONENT_Cb planes) as [cbP|]; [|discriminate].
  destruct (last_seen FLEX_COMPONENT_Cr planes) as [crP|]; [|discriminate].
  destruct (_ && _); [|discriminate].
  intros [= <-]. exists yP, cbP, crP. repeat split; reflexivity.
Qed.

(** ** Checks on the concrete layout *)

Example nv12_through_mapper :
  lockAsyncYCbCr 64 (mapper_backend FLEX_FORMAT_YCbCr nv12_planes) 5 3
    full_bounds (-1) fresh_world =
  (GRALLOC1_ERROR_NONE,
   {| ycbcr := {| y := 4096; cb := 8192; cr := 8193;
                  ystride := 64; cstride := 32; chroma_step := 2 |};
      calls := [MapperLock 5] |}).
Proof. reflexivity. Qed.

Example nv12_through_device :
  lockAsyncYCbCr 64 (device_backend FLEX_FORMAT_YCbCr nv12_planes) 5 3
    full_bounds (-1) fresh_world =
  (GRALLOC1_ERROR_NONE,
   {| ycbcr := {| y := 4096; cb := 8192; cr := 8193;
                  ystride := 64; cstride := 32; chroma_step := 2 |};
      calls := [DeviceGetNumFlexPlanes 5; DeviceLockFlex 5] |}).
Proof. reflexivity. Qed.

Example mixed_step_through_device :
  lockAsyncYCbCr 64 (device_backend FLEX_FORMAT_YCbCr mixed_step_planes) 5 3
    full_bounds (-1) fresh_world =
  (GRALLOC1_ERROR_UNSUPPORTED,
   {| ycbcr := blank_ycbcr;
      calls := [DeviceGetNumFlexPlanes 5; DeviceLockFlex 5; DeviceUnlock 5;
                SyncWait 9; Close 9] |}).
Proof. reflexivity. Qed.

Example two_luma_through_mapper :
  lockAsyncYCbCr 64 (mapper_backend FLEX_FORMAT_YCbCr two_luma_planes) 5 3
    full_bounds (-1) fresh_world =
  (GRALLOC1_ERROR_NONE,
   {| ycbcr := {| y := 4096; cb := 8192; cr := 8193;
                  ystride := 64; cstride := 32; chroma_step := 2 |};
      calls := [MapperLock 5] |}).
Proof. reflexivity. Qed.

Example rgb_tag_through_mapper :
  lockAsyncYCbCr 64 (mapper_backend FLEX_FORMAT_other nv12_planes) 5 3
    full_bounds (-1) fresh_world =
  (GRALLOC1_ERROR_UNSUPPORTED,
   {| ycbcr := blank_ycbcr;
      calls := [MapperLock 5; MapperUnlock 5; SyncWait 7; Close 7] |}).
Proof. reflexivity. Qed.

(** ** Properties of lockAsyncYCbCr *)

(** C1.  When the lock succeeds with a layout tagged YCbCr whose Y, Cb and Cr
    planes (the last of each component in the list) pass the per-plane
    validation and whose Cb and Cr planes agree on both increments,
    lockAsyncYCbCr succeeds, and the output record holds the three start
    addresses, the Y plane's vertical increment as ystride, the Cb plane's
    vertical increment as cstride and the Cb plane's horizontal increment as
    chroma_step. *)
Theorem lockAsyncYCbCr_packs_valid_layout
    (size_t_bits : Z) (be : Backend) (handle : buffer_handle_t) (usage : Z)
    (bounds : Rect) (fenceFd : Z) (w w1 : World)
    (flexLayout : android_flex_layout_t)
    (planes : list android_flex_plane_t)
    (yP cbP crP : android_flex_plane_t) :
  32 <= size_t_bits ->
  lockFlexLayout be handle usage bounds fenceFd w =
    Locked GRALLOC1_ERROR_NONE flexLayout planes w1 ->
  Forall int32_plane planes ->
  format flexLayout = FLEX_FORMAT_YCbCr ->
  last_seen FLEX_COMPONENT_Y planes = Some yP ->
  last_seen FLEX_COMPONENT_Cb planes = Some cbP ->
  last_seen FLEX_COMPONENT_Cr planes = Some crP ->
  usable_8bit_plane yP -> usable_8bit_plane cbP -> usable_8bit_plane crP ->
  v_increment cbP = v_increment crP ->
  h_increment cbP = h_increment crP ->
  fst (lockAsyncYCbCr size_t_bits be handle usage bounds fenceFd w) =
    GRALLOC1_ERROR_NONE /\
  y (ycbcr (snd (lockAsyncYCbCr size_t_bits be handle usage bounds fenceFd w)))
    = top_left yP /\
  cb (ycbcr (snd (lockAsyncYCbCr size_t_bits be handle usage bounds fenceFd w)))
    = top_left cbP /\
  cr (ycbcr (snd (lockAsyncYCbCr size_t_bits be handle usage bounds fenceFd w)))
    = top_left crP /\
  ystride
    (ycbcr (snd (lockAsyncYCbCr size_t_bits be handle usage bounds fenceFd w)))
    = v_increment yP /\
  cstride
    (ycbcr (snd (lockAsyncYCbCr size_t_bits be handle usage bounds fenceFd w)))
    = v_increment cbP /\
  chroma_step
    (ycbcr (snd (lockAsyncYCbCr size_t_bits be handle usage bounds fenceFd w)))
    = h_increment cbP /\
  calls (snd (lockAsyncYCbCr size_t_bits be handle usage bounds fenceFd w)) =
    calls w1.
Proof.
  intros Hbits Hlock Hrange Hfmt Hy Hcb Hcr Uy Ucb Ucr Hv Hh.
  unfold lockAsyncYCbCr. rewrite Hlock. simpl negb. cbv iota.
  rewrite convertFlexLayout_refines. unfold FlexYCbCrResolver.
  rewrite Hfmt, Hy, Hcb, Hcr.
  destruct (last_seen_Some _ _ _ Hy) as [Iy Cy].
  destruct (last_seen_Some _ _ _ Hcb) as [Icb Ccb].
  destruct (last_seen_Some _ _ _ Hcr) as [Icr Ccr].
  assert (Vy : isValidYCbCrPlane yP = true)
    by (apply isValidYCbCrPlane_usable; [congruence|exact Uy]).
  assert (Vcb : isValidYCbCrPlane cbP = true)
    by (apply isValidYCbCrPlane_usable; [congruence|exact Ucb]).
  assert (Vcr : isValidYCbCrPlane crP = true)
    by (apply isValidYCbCrPlane_usable; [congruence|exact Ucr]).
  rewrite Vy, Vcb, Vcr.
  rewrite (proj2 (Z.eqb_eq _ _) Hv), (proj2 (Z.eqb_eq _ _) Hh). simpl.
  rewrite Forall_forall in Hrange.
  destruct (Hrange _ Iy) as (_ & _ & _ & Ry).
  destruct (Hrange _ Icb) as (_ & _ & Rcbh & Rcbv).
  destruct Uy as (_ & _ & Py & _). destruct Ucb as (_ & _ & Pcb & _ & Hstep).
  assert (Pstep : 0 <= h_increment cbP)
    by (destruct Hstep as [E|E]; [now left|rewrite E; lia|rewrite E; lia]).
  unfold packYCbCr. simpl.
  rewrite !static_cast_size_t_id by (assumption || lia).
  repeat split; reflexivity.
Qed.

Lemma lockAsyncYCbCr_packs_valid_layout_witness :
  fst (lockAsyncYCbCr 64 (mapper_backend FLEX_FORMAT_YCbCr nv12_planes) 5 3
         full_bounds (-1) fresh_world) = GRALLOC1_ERROR_NONE /\
  y (ycbcr (snd (lockAsyncYCbCr 64
                   (mapper_backend FLEX_FORMAT_YCbCr nv12_planes) 5 3
                   full_bounds (-1) fresh_world))) = 4096 /\
  cb (ycbcr (snd (lockAsyncYCbCr 64
                    (mapper_backend FLEX_FORMAT_YCbCr nv12_planes) 5 3
                    full_bounds (-1) fresh_world))) = 8192 /\
  cr (ycbcr (snd (lockAsyncYCbCr 64
                    (mapper_backend FLEX_FORMAT_YCbCr nv12_planes) 5 3
                    full_bounds (-1) fresh_world))) = 8193 /\
  ystride
    (ycbcr (snd (lockAsyncYCbCr 64
                   (mapper_backend FLEX_FORMAT_YCbCr nv12_planes) 5 3
                   full_bounds (-1) fresh_world))) = 64 /\
  cstride
    (ycbcr (snd (lockAsyncYCbCr 64
                   (mapper_backend FLEX_FORMAT_YCbCr nv12_planes) 5 3
                   full_bounds (-1) fresh_world))) = 32 /\
  chroma_step
    (ycbcr (snd (lockAsyncYCbCr 64
                   (mapper_backend FLEX_FORMAT_YCbCr nv12_planes) 5 3
                   full_bounds (-1) fresh_world))) = 2 /\
  calls (snd (lockAsyncYCbCr 64
                (mapper_backend FLEX_FORMAT_YCbCr nv12_planes) 5 3
                full_bounds (-1) fresh_world)) =
    calls (log (MapperLock 5) fresh_world).
Proof.
  apply (lockAsyncYCbCr_packs_valid_layout 64
           (mapper_backend FLEX_FORMAT_YCbCr nv12_planes) 5 3 full_bounds (-1)
           fresh_world (log (MapperLock 5) fresh_world)
           {| format := FLEX_FORMAT_YCbCr; num_planes := 3%N;
              planes := nv12_planes |}
           nv12_planes
           (plane8 FLEX_COMPONENT_Y 1 64 4096)
           (plane8 FLEX_COMPONENT_Cb 2 32 8192)
           (plane8 FLEX_COMPONENT_Cr 2 32 8193)).
  - lia.
  - reflexivity.
  - repeat constructor; simpl; lia.
  - reflexivity.
  - reflexivity.
  - reflexivity.
  - reflexivity.
  - unfold usable_8bit_plane; simpl; repeat split; (lia || discriminate || auto).
  - unfold usable_8bit_plane; simpl; repeat split; (lia || discriminate || auto).
  - unfold usable_8bit_plane; simpl; repeat split; (lia || discriminate || auto).
  - reflexivity.
  - reflexivity.
Defined.

(** C2.  For the selected Y, Cb and Cr planes, isValidYCbCrPlane accepts a
    plane exactly when it has 8 bits per component, 8 bits used, a strictly
    positive vertical increment and a horizontal increment of 1 (Y plane) or
    of 1 or 2 (Cb or Cr plane); if any of the three planes violates this, the
    conversion ends in GRALLOC1_ERROR_UNSUPPORTED and writes no
    descriptor. *)
Theorem isValidYCbCrPlane_gates_conversion
    (size_t_bits : Z) (be : Backend) (handle : buffer_handle_t)
    (flexLayout : android_flex_layout_t)
    (planes : list android_flex_plane_t) (w : World)
    (yP cbP crP : android_flex_plane_t) :
  last_seen FLEX_COMPONENT_Y planes = Some yP ->
  last_seen FLEX_COMPONENT_Cb planes = Some cbP ->
  last_seen FLEX_COMPONENT_Cr planes = Some crP ->
  (isValidYCbCrPlane yP = true <-> usable_8bit_plane yP) /\
  (isValidYCbCrPlane cbP = true <-> usable_8bit_plane cbP) /\
  (isValidYCbCrPlane crP = true <-> usable_8bit_plane crP) /\
  (~ usable_8bit_plane yP \/ ~ usable_8bit_plane cbP \/
   ~ usable_8bit_plane crP ->
   fst (convertFlexLayout size_t_bits be handle GRALLOC1_ERROR_NONE
          flexLayout planes w) = GRALLOC1_ERROR_UNSUPPORTED /\
   ycbcr (snd (convertFlexLayout size_t_bits be handle GRALLOC1_ERROR_NONE
                 flexLayout planes w)) = ycbcr w).
Proof.
  intros Hy Hcb Hcr.
  destruct (last_seen_Some _ _ _ Hy) as [_ Cy].
  destruct (last_seen_Some _ _ _ Hcb) as [_ Ccb].
  destruct (last_seen_Some _ _ _ Hcr) as [_ Ccr].
  assert (Ey : isValidYCbCrPlane yP = true <-> usable_8bit_plane yP)
    by (apply isValidYCbCrPlane_usable; congruence).
  assert (Ecb : isValidYCbCrPlane cbP = true <-> usable_8bit_plane cbP)
    by (apply isValidYCbCrPlane_usable; congruence).
  assert (Ecr : isValidYCbCrPlane crP = true <-> usable_8bit_plane crP)
    by (apply isValidYCbCrPlane_usable; congruence).
  repeat (split; [assumption|]).
  intros Hbad.
  rewrite convertFlexLayout_unsupported.
  - split; [reflexivity|apply unlock_unsupported_ycbcr].
  - unfold FlexYCbCrResolver. rewrite Hy, Hcb, Hcr.
    destruct (format flexLayout); try reflexivity.
    destruct (isValidYCbCrPlane yP); [|reflexivity].
    destruct (isValidYCbCrPlane cbP); [|reflexivity].
    destruct (isValidYCbCrPlane crP); [|reflexivity].
    exfalso. destruct Hbad as [H|[H|H]]; apply H; tauto.
Qed.

Lemma isValidYCbCrPlane_gates_conversion_witness :
  (isValidYCbCrPlane (plane8 FLEX_COMPONENT_Y 1 64 4096) = true <->
   usable_8bit_plane (plane8 FLEX_COMPONENT_Y 1 64 4096)) /\
  (isValidYCbCrPlane (plane8 FLEX_COMPONENT_Cb 2 32 8192) = true <->
   usable_8bit_plane (plane8 FLEX_COMPONENT_Cb 2 32 8192)) /\
  (isValidYCbCrPlane
     {| top_left := 8193; component := FLEX_COMPONENT_Cr;
        bits_per_component := 8; bits_used := 10;
        h_increment := 2; v_increment := 32 |} = true <->
   usable_8bit_plane
     {| top_left := 8193; component := FLEX_COMPONENT_Cr;
        bits_per_component := 8; bits_used := 10;
        h_increment := 2; v_increment := 32 |}) /\
  (~ usable_8bit_plane (plane8 FLEX_COMPONENT_Y 1 64 4096) \/
   ~ usable_8bit_plane (plane8 FLEX_COMPONENT_Cb 2 32 8192) \/
   ~ usable_8bit_plane
       {| top_left := 8193; component := FLEX_COMPONENT_Cr;
          bits_per_component := 8; bits_used := 10;
          h_increment := 2; v_increment := 32 |} ->
   fst (convertFlexLayout 64
          (device_backend FLEX_FORMAT_YCbCr deep_cr_planes) 5
          GRALLOC1_ERROR_NONE (layout_of FLEX_FORMAT_YCbCr deep_cr_planes)
          deep_cr_planes fresh_world) = GRALLOC1_ERROR_UNSUPPORTED /\
   ycbcr (snd (convertFlexLayout 64
                 (device_backend FLEX_FORMAT_YCbCr deep_cr_planes) 5
                 GRALLOC1_ERROR_NONE
                 (layout_of FLEX_FORMAT_YCbCr deep_cr_planes)
                 deep_cr_planes fresh_world)) = ycbcr fresh_world).
Proof.
  apply (isValidYCbCrPlane_gates_conversion 64
           (device_backend FLEX_FORMAT_YCbCr deep_cr_planes) 5
           (layout_of FLEX_FORMAT_YCbCr deep_cr_planes) deep_cr_planes
           fresh_world).
  - reflexivity.
  - reflexivity.
  - reflexivity.
Defined.

(** C3.  When the lock has succeeded and lockAsyncYCbCr nevertheless fails,
    it returns GRALLOC1_ERROR_UNSUPPORTED, it has unlocked the handle exactly
    once, and it has unlocked no other handle. *)
Theorem lockAsyncYCbCr_failure_unlocks_once
    (size_t_bits : Z) (be : Backend) (handle : buffer_handle_t) (usage : Z)
    (bounds : Rect) (fenceFd : Z) (w w1 : World)
    (flexLayout : android_flex_layout_t)
    (planes : list android_flex_plane_t) :
  lockFlexLayout be handle usage bounds fenceFd w =
    Locked GRALLOC1_ERROR_NONE flexLayout planes w1 ->
  fst (lockAsyncYCbCr size_t_bits be handle usage bounds fenceFd w) <>
    GRALLOC1_ERROR_NONE ->
  fst (lockAsyncYCbCr size_t_bits be handle usage bounds fenceFd w) =
    GRALLOC1_ERROR_UNSUPPORTED /\
  unlocks handle
    (calls (snd (lockAsyncYCbCr size_t_bits be handle usage bounds fenceFd w))) =
    S (unlocks handle (calls w)) /\
  forall h, h <> handle ->
    unlocks h
      (calls (snd (lockAsyncYCbCr size_t_bits be handle usage bounds fenceFd w))) =
    unlocks h (calls w).
Proof.
  intros Hlock. unfold lockAsyncYCbCr. rewrite Hlock. simpl.
  destruct (lockFlexLayout_Locked _ _ _ _ _ _ _ _ _ _ Hlock) as (_ & Hcalls & _).
  rewrite convertFlexLayout_refines.
  destruct (FlexYCbCrResolver size_t_bits (format flexLayout) planes);
    simpl; [congruence|].
  intros _. split; [reflexivity|]. split.
  - rewrite unlock_unlocks, Z.eqb_refl, Hcalls. reflexivity.
  - intros h Hh. rewrite unlock_unlocks, Hcalls.
    destruct (Z.eqb_spec handle h); [congruence|reflexivity].
Qed.

Lemma lockAsyncYCbCr_failure_unlocks_once_witness :
  fst (lockAsyncYCbCr 64 (device_backend FLEX_FORMAT_YCbCr mixed_step_planes)
         5 3 full_bounds (-1) fresh_world) = GRALLOC1_ERROR_UNSUPPORTED /\
  unlocks 5
    (calls (snd (lockAsyncYCbCr 64
                   (device_backend FLEX_FORMAT_YCbCr mixed_step_planes)
                   5 3 full_bounds (-1) fresh_world))) =
    S (unlocks 5 (calls fresh_world)) /\
  forall h, h <> 5 ->
    unlocks h
      (calls (snd (lockAsyncYCbCr 64
                     (device_backend FLEX_FORMAT_YCbCr mixed_step_planes)
                     5 3 full_bounds (-1) fresh_world))) =
    unlocks h (calls fresh_world).
Proof.
  apply (lockAsyncYCbCr_failure_unlocks_once 64
           (device_backend FLEX_FORMAT_YCbCr mixed_step_planes) 5 3
           full_bounds (-1) fresh_world
           (log (DeviceLockFlex 5) (log (DeviceGetNumFlexPlanes 5) fresh_world))
           {| format := FLEX_FORMAT_YCbCr; num_planes := 3%N;
              planes := mixed_step_planes |}
           mixed_step_planes).
  - reflexivity.
  - vm_compute. discriminate.
Defined.

(** C4.  If one of the components Y, Cb, Cr is borne by no plane of the list,
    the conversion ends in GRALLOC1_ERROR_UNSUPPORTED and the output record is
    left as it was. *)
Theorem convertFlexLayout_missing_component
    (size_t_bits : Z) (be : Backend) (handle : buffer_handle_t)
    (flexLayout : android_flex_layout_t)
    (planes : list android_flex_plane_t) (w : World)
    (c : android_flex_component_t) :
  c <> FLEX_COMPONENT_other ->
  (forall p, In p planes -> component p <> c) ->
  fst (convertFlexLayout size_t_bits be handle GRALLOC1_ERROR_NONE
         flexLayout planes w) = GRALLOC1_ERROR_UNSUPPORTED /\
  ycbcr (snd (convertFlexLayout size_t_bits be handle GRALLOC1_ERROR_NONE
                flexLayout planes w)) = ycbcr w.
Proof.
  intros Hc Hmissing. apply last_seen_None in Hmissing.
  rewrite convertFlexLayout_unsupported.
  - split; [reflexivity|apply unlock_unsupported_ycbcr].
  - unfold FlexYCbCrResolver.
    destruct (format flexLayout); try reflexivity.
    destruct c; try congruence; rewrite Hmissing;
      repeat match goal with
             | |- context [last_seen ?k planes] => destruct (last_seen k planes)
             end; reflexivity.
Qed.

Lemma convertFlexLayout_missing_component_witness :
  fst (convertFlexLayout 64 (mapper_backend FLEX_FORMAT_YCbCr nv12_planes) 5
         GRALLOC1_ERROR_NONE
         (layout_of FLEX_FORMAT_YCbCr (firstn 2 nv12_planes))
         (firstn 2 nv12_planes) fresh_world) = GRALLOC1_ERROR_UNSUPPORTED /\
  ycbcr (snd (convertFlexLayout 64
                (mapper_backend FLEX_FORMAT_YCbCr nv12_planes) 5
                GRALLOC1_ERROR_NONE
                (layout_of FLEX_FORMAT_YCbCr (firstn 2 nv12_planes))
                (firstn 2 nv12_planes) fresh_world)) = ycbcr fresh_world.
Proof.
  apply (convertFlexLayout_missing_component 64
           (mapper_backend FLEX_FORMAT_YCbCr nv12_planes) 5
           (layout_of FLEX_FORMAT_YCbCr (firstn 2 nv12_planes))
           (firstn 2 nv12_planes) fresh_world FLEX_COMPONENT_Cr).
  - discriminate.
  - simpl. intros p [<-|[<-|[]]]; simpl; discriminate.
Defined.

(** C5.  If the selected Cb and Cr planes differ in vertical increment or in
    horizontal increment, the conversion ends in GRALLOC1_ERROR_UNSUPPORTED
    and writes no descriptor, whatever the per-plane validation says. *)
Theorem convertFlexLayout_chroma_mismatch
    (size_t_bits : Z) (be : Backend) (handle : buffer_handle_t)
    (flexLayout : android_flex_layout_t)
    (planes : list android_flex_plane_t) (w : World)
    (cbP crP : android_flex_plane_t) :
  last_seen FLEX_COMPONENT_Cb planes = Some cbP ->
  last_seen FLEX_COMPONENT_Cr planes = Some crP ->
  v_increment cbP <> v_increment crP \/ h_increment cbP <> h_increment crP ->
  fst (convertFlexLayout size_t_bits be handle GRALLOC1_ERROR_NONE
         flexLayout planes w) = GRALLOC1_ERROR_UNSUPPORTED /\
  ycbcr (snd (convertFlexLayout size_t_bits be handle GRALLOC1_ERROR_NONE
                flexLayout planes w)) = ycbcr w.
Proof.
  intros Hcb Hcr Hdiff.
  rewrite convertFlexLayout_unsupported.
  - split; [reflexivity|apply unlock_unsupported_ycbcr].
  - unfold FlexYCbCrResolver. rewrite Hcb, Hcr.
    destruct (format flexLayout); try reflexivity.
    destruct (last_seen FLEX_COMPONENT_Y planes) as [yP|]; [|reflexivity].
    destruct (Z.eqb_spec (v_increment cbP) (v_increment crP)) as [Ev|Ev];
      [|rewrite andb_false_r; reflexivity].
    destruct (Z.eqb_spec (h_increment cbP) (h_increment crP)) as [Eh|Eh];
      [|rewrite andb_false_r; reflexivity].
    exfalso. destruct Hdiff as [H|H]; apply H; assumption.
Qed.

Lemma convertFlexLayout_chroma_mismatch_witness :
  isValidYCbCrPlane (plane8 FLEX_COMPONENT_Cb 1 32 8192) = true /\
  isValidYCbCrPlane (plane8 FLEX_COMPONENT_Cr 2 32 8193) = true /\
  fst (convertFlexLayout 64
         (mapper_backend FLEX_FORMAT_YCbCr mixed_step_planes) 5
         GRALLOC1_ERROR_NONE (layout_of FLEX_FORMAT_YCbCr mixed_step_planes)
         mixed_step_planes fresh_world) = GRALLOC1_ERROR_UNSUPPORTED /\
  ycbcr (snd (convertFlexLayout 64
                (mapper_backend FLEX_FORMAT_YCbCr mixed_step_planes) 5
                GRALLOC1_ERROR_NONE
                (layout_of FLEX_FORMAT_YCbCr mixed_step_planes)
                mixed_step_planes fresh_world)) = ycbcr fresh_world.
Proof.
  split; [reflexivity|]. split; [reflexivity|].
  apply (convertFlexLayout_chroma_mismatch 64
           (mapper_backend FLEX_FORMAT_YCbCr mixed_step_planes) 5
           (layout_of FLEX_FORMAT_YCbCr mixed_step_planes)
           mixed_step_planes fresh_world
           (plane8 FLEX_COMPONENT_Cb 1 32 8192)
           (plane8 FLEX_COMPONENT_Cr 2 32 8193)).
  - reflexivity.
  - reflexivity.
  - right. simpl. lia.
Defined.

(** C6.  When the lock has succeeded with a layout whose format tag is not
    YCbCr, lockAsyncYCbCr unlocks and returns GRALLOC1_ERROR_UNSUPPORTED
    without looking at the planes, and the output record is left as it
    was. *)
Theorem lockAsyncYCbCr_rejects_other_format
    (size_t_bits : Z) (be : Backend) (handle : buffer_handle_t) (usage : Z)
    (bounds : Rect) (fenceFd : Z) (w w1 : World)
    (flexLayout : android_flex_layout_t)
    (planes : list android_flex_plane_t) :
  lockFlexLayout be handle usage bounds fenceFd w =
    Locked GRALLOC1_ERROR_NONE flexLayout planes w1 ->
  format flexLayout <> FLEX_FORMAT_YCbCr ->
  lockAsyncYCbCr size_t_bits be handle usage bounds fenceFd w =
    (GRALLOC1_ERROR_UNSUPPORTED, snd (unlock be handle w1)) /\
  (forall planes',
     convertFlexLayout size_t_bits be handle GRALLOC1_ERROR_NONE flexLayout
       planes' w1 =
     convertFlexLayout size_t_bits be handle GRALLOC1_ERROR_NONE flexLayout
       planes w1) /\
  ycbcr (snd (lockAsyncYCbCr size_t_bits be handle usage bounds fenceFd w)) =
    ycbcr w.
Proof.
  intros Hlock Hfmt.
  destruct (lockFlexLayout_Locked _ _ _ _ _ _ _ _ _ _ Hlock) as (Hout & _ & _).
  assert (Hconv : forall pl,
             convertFlexLayout size_t_bits be handle GRALLOC1_ERROR_NONE
               flexLayout pl w1 = unlock_unsupported be handle w1).
  { intros pl. unfold convertFlexLayout.
    destruct (format_eqb (format flexLayout) FLEX_FORMAT_YCbCr) eqn:E;
      [|reflexivity].
    apply format_eqb_eq in E. contradiction. }
  unfold lockAsyncYCbCr. rewrite Hlock. simpl. rewrite Hconv.
  split; [reflexivity|]. split.
  - intros planes'. rewrite !Hconv. reflexivity.
  - rewrite unlock_unsupported_ycbcr. exact Hout.
Qed.

Lemma lockAsyncYCbCr_rejects_other_format_witness :
  lockAsyncYCbCr 64 (mapper_backend FLEX_FORMAT_other nv12_planes) 5 3
    full_bounds (-1) fresh_world =
    (GRALLOC1_ERROR_UNSUPPORTED,
     snd (unlock (mapper_backend FLEX_FORMAT_other nv12_planes) 5
            (log (MapperLock 5) fresh_world))) /\
  (forall planes',
     convertFlexLayout 64 (mapper_backend FLEX_FORMAT_other nv12_planes) 5
       GRALLOC1_ERROR_NONE
       {| format := FLEX_FORMAT_other; num_planes := 3%N;
          planes := nv12_planes |}
       planes' (log (MapperLock 5) fresh_world) =
     convertFlexLayout 64 (mapper_backend FLEX_FORMAT_other nv12_planes) 5
       GRALLOC1_ERROR_NONE
       {| format := FLEX_FORMAT_other; num_planes := 3%N;
          planes := nv12_planes |}
       nv12_planes (log (MapperLock 5) fresh_world)) /\
  ycbcr (snd (lockAsyncYCbCr 64
                (mapper_backend FLEX_FORMAT_other nv12_planes) 5 3
                full_bounds (-1) fresh_world)) = ycbcr fresh_world.
Proof.
  apply (lockAsyncYCbCr_rejects_other_format 64
           (mapper_backend FLEX_FORMAT_other nv12_planes) 5 3 full_bounds
           (-1) fresh_world (log (MapperLock 5) fresh_world)
           {| format := FLEX_FORMAT_other; num_planes := 3%N;
              planes := nv12_planes |}
           nv12_planes).
  - reflexivity.
  - simpl. discriminate.
Defined.

(** C7.  On the flex-layout path (the Gralloc2 mapper, or a Gralloc1 device
    without the adapter capability), a failing lockAsyncYCbCr leaves the
    caller's android_ycbcr record as it was, and a succeeding one leaves in it
    the descriptor packed from the selected Y, Cb and Cr planes of the locked
    layout. *)
Theorem lockAsyncYCbCr_no_partial_output
    (size_t_bits : Z) (be : Backend) (handle : buffer_handle_t) (usage : Z)
    (bounds : Rect) (fenceFd : Z) (w : World) :
  mMapper_valid be = true \/ mDevice_hasCapability_ON_ADAPTER be = false ->
  (fst (lockAsyncYCbCr size_t_bits be handle usage bounds fenceFd w) <>
     GRALLOC1_ERROR_NONE ->
   ycbcr (snd (lockAsyncYCbCr size_t_bits be handle usage bounds fenceFd w)) =
     ycbcr w) /\
  (fst (lockAsyncYCbCr size_t_bits be handle usage bounds fenceFd w) =
     GRALLOC1_ERROR_NONE ->
   exists flexLayout planes w1 yP cbP crP,
     lockFlexLayout be handle usage bounds fenceFd w =
       Locked GRALLOC1_ERROR_NONE flexLayout planes w1 /\
     last_seen FLEX_COMPONENT_Y planes = Some yP /\
     last_seen FLEX_COMPONENT_Cb planes = Some cbP /\
     last_seen FLEX_COMPONENT_Cr planes = Some crP /\
     ycbcr (snd (lockAsyncYCbCr size_t_bits be handle usage bounds fenceFd w)) =
       packYCbCr size_t_bits yP cbP crP).
Proof.
  intros Hpath. unfold lockAsyncYCbCr.
  destruct (lockFlexLayout be handle usage bounds fenceFd w)
    as [e w1|e fl planes w1] eqn:Hlock.
  - destruct (lockFlexLayout_Returned _ _ _ _ _ _ _ _ Hpath Hlock) as [Hout He].
    simpl. split; [intros _; exact Hout|contradiction].
  - destruct (lockFlexLayout_Locked _ _ _ _ _ _ _ _ _ _ Hlock) as (Hout & _ & _).
    destruct (error_eqb e GRALLOC1_ERROR_NONE) eqn:E; simpl.
    + apply error_eqb_eq in E. subst e.
      rewrite convertFlexLayout_refines.
      destruct (FlexYCbCrResolver size_t_bits (format fl) planes) as [out|] eqn:R.
      * simpl. split; [congruence|]. intros _.
        destruct (FlexYCbCrResolver_Some _ _ _ _ R)
          as (yP & cbP & crP & _ & Hy & Hcb & Hcr & ->).
        exists fl, planes, w1, yP, cbP, crP. repeat split; assumption.
      * split.
        -- intros _. rewrite unlock_unsupported_ycbcr. exact Hout.
        -- rewrite unlock_unsupported_fst. discriminate.
    + split; [intros _; exact Hout|].
      intros ->. discriminate.
Qed.

Lemma lockAsyncYCbCr_no_partial_output_witness :
  (fst (lockAsyncYCbCr 64 (device_backend FLEX_FORMAT_YCbCr deep_cr_planes)
          5 3 full_bounds (-1) fresh_world) <> GRALLOC1_ERROR_NONE ->
   ycbcr (snd (lockAsyncYCbCr 64
                 (device_backend FLEX_FORMAT_YCbCr deep_cr_planes) 5 3
                 full_bounds (-1) fresh_world)) = ycbcr fresh_world) /\
  (fst (lockAsyncYCbCr 64 (device_backend FLEX_FORMAT_YCbCr deep_cr_planes)
          5 3 full_bounds (-1) fresh_world) = GRALLOC1_ERROR_NONE ->
   exists flexLayout planes w1 yP cbP crP,
     lockFlexLayout (device_backend FLEX_FORMAT_YCbCr deep_cr_planes) 5 3
       full_bounds (-1) fresh_world =
       Locked GRALLOC1_ERROR_NONE flexLayout planes w1 /\
     last_seen FLEX_COMPONENT_Y planes = Some yP /\
     last_seen FLEX_COMPONENT_Cb planes = Some cbP /\
     last_seen FLEX_COMPONENT_Cr planes = Some crP /\
     ycbcr (snd (lockAsyncYCbCr 64
                   (device_backend FLEX_FORMAT_YCbCr deep_cr_planes) 5 3
                   full_bounds (-1) fresh_world)) =
       packYCbCr 64 yP cbP crP).
Proof.
  apply (lockAsyncYCbCr_no_partial_output 64
           (device_backend FLEX_FORMAT_YCbCr deep_cr_planes) 5 3 full_bounds
           (-1) fresh_world).
  right. reflexivity.
Defined.

(** C8.  The scan leaves, for each of Y, Cb and Cr, an iterator to the last
    plane of the list bearing that component (or cend() when there is none),
    and the outcome of the conversion depends on the plane list only through
    the three planes so selected: earlier planes of the same component are
    overridden. *)
Theorem findPlanes_last_occurrence_wins
    (size_t_bits : Z) (be : Backend) (handle : buffer_handle_t)
    (error : gralloc1_error_t) (flexLayout : android_flex_layout_t)
    (planes planes' : list android_flex_plane_t) (w : World)
    (yPlane cbPlane crPlane yPlane' cbPlane' crPlane' : nat) :
  findPlanes planes = (yPlane, cbPlane, crPlane) ->
  findPlanes planes' = (yPlane', cbPlane', crPlane') ->
  iterator_for FLEX_COMPONENT_Y planes yPlane /\
  iterator_for FLEX_COMPONENT_Cb planes cbPlane /\
  iterator_for FLEX_COMPONENT_Cr planes crPlane /\
  (selected planes yPlane = selected planes' yPlane' ->
   selected planes cbPlane = selected planes' cbPlane' ->
   selected planes crPlane = selected planes' crPlane' ->
   convertFlexLayout size_t_bits be handle error flexLayout planes w =
   convertFlexLayout size_t_bits be handle error flexLayout planes' w).
Proof.
  intros F F'.
  destruct (findPlanes_selected _ _ _ _ F) as (Hy & Hcb & Hcr).
  destruct (findPlanes_selected _ _ _ _ F') as (Hy' & Hcb' & Hcr').
  unfold findPlanes in F. rewrite findPlanes_from_last_pos in F.
  injection F as <- <- <-.
  repeat (split; [apply iterator_for_last_pos|]).
  rewrite Hy, Hcb, Hcr, Hy', Hcb', Hcr'. intros Ey Ecb Ecr.
  rewrite !convertFlexLayout_refines. unfold FlexYCbCrResolver.
  rewrite Ey, Ecb, Ecr. reflexivity.
Qed.

Lemma findPlanes_last_occurrence_wins_witness :
  iterator_for FLEX_COMPONENT_Y two_luma_planes 1%nat /\
  iterator_for FLEX_COMPONENT_Cb two_luma_planes 2%nat /\
  iterator_for FLEX_COMPONENT_Cr two_luma_planes 3%nat /\
  (selected two_luma_planes 1%nat = selected nv12_planes 0%nat ->
   selected two_luma_planes 2%nat = selected nv12_planes 1%nat ->
   selected two_luma_planes 3%nat = selected nv12_planes 2%nat ->
   convertFlexLayout 64 (mapper_backend FLEX_FORMAT_YCbCr two_luma_planes) 5
     GRALLOC1_ERROR_NONE (layout_of FLEX_FORMAT_YCbCr two_luma_planes)
     two_luma_planes fresh_world =
   convertFlexLayout 64 (mapper_backend FLEX_FORMAT_YCbCr two_luma_planes) 5
     GRALLOC1_ERROR_NONE (layout_of FLEX_FORMAT_YCbCr two_luma_planes)
     nv12_planes fresh_world).
Proof.
  apply (findPlanes_last_occurrence_wins 64
           (mapper_backend FLEX_FORMAT_YCbCr two_luma_planes) 5
           GRALLOC1_ERROR_NONE (layout_of FLEX_FORMAT_YCbCr two_luma_planes)
           two_luma_planes nv12_planes fresh_world
           1%nat 2%nat 3%nat 0%nat 1%nat 2%nat).
  - reflexivity.
  - reflexivity.
Defined.

(** C9.  The outcome of the conversion, and on success the descriptor it
    writes, are a function of the flex layout alone: two runs on the same
    layout agree on both, whatever backend, handle and state they start
    from. *)
Theorem convertFlexLayout_pure
    (size_t_bits : Z) (be be' : Backend) (handle handle' : buffer_handle_t)
    (flexLayout : android_flex_layout_t)
    (planes : list android_flex_plane_t) (w w' : World) :
  fst (convertFlexLayout size_t_bits be handle GRALLOC1_ERROR_NONE
         flexLayout planes w) =
  fst (convertFlexLayout size_t_bits be' handle' GRALLOC1_ERROR_NONE
         flexLayout planes w') /\
  (fst (convertFlexLayout size_t_bits be handle GRALLOC1_ERROR_NONE
          flexLayout planes w) = GRALLOC1_ERROR_NONE ->
   ycbcr (snd (convertFlexLayout size_t_bits be handle GRALLOC1_ERROR_NONE
                 flexLayout planes w)) =
   ycbcr (snd (convertFlexLayout size_t_bits be' handle' GRALLOC1_ERROR_NONE
                 flexLayout planes w'))).
Proof.
  rewrite !convertFlexLayout_refines.
  destruct (FlexYCbCrResolver size_t_bits (format flexLayout) planes);
    simpl; split; try reflexivity; discriminate.
Qed.

(** C10.  A plane whose component is none of Y, Cb, Cr does not count:
    with or without it, at any position of the list, the conversion returns
    the same outcome and leaves the same state, descriptor included. *)
Theorem convertFlexLayout_ignores_other_planes
    (size_t_bits : Z) (be : Backend) (handle : buffer_handle_t)
    (error : gralloc1_error_t) (flexLayout : android_flex_layout_t)
    (l1 l2 : list android_flex_plane_t) (p : android_flex_plane_t)
    (w : World) :
  component p <> FLEX_COMPONENT_Y ->
  component p <> FLEX_COMPONENT_Cb ->
  component p <> FLEX_COMPONENT_Cr ->
  convertFlexLayout size_t_bits be handle error flexLayout
    (l1 ++ p :: l2) w =
  convertFlexLayout size_t_bits be handle error flexLayout (l1 ++ l2) w.
Proof.
  intros Hy Hcb Hcr.
  rewrite !convertFlexLayout_refines. unfold FlexYCbCrResolver.
  rewrite !(last_seen_drop _ l1 l2 p) by (left; assumption).
  reflexivity.
Qed.

Lemma convertFlexLayout_ignores_other_planes_witness :
  convertFlexLayout 64 (mapper_backend FLEX_FORMAT_YCbCr nv12_planes) 5
    GRALLOC1_ERROR_NONE (layout_of FLEX_FORMAT_YCbCr nv12_planes)
    (firstn 1 nv12_planes ++
     {| top_left := 12288; component := FLEX_COMPONENT_other;
        bits_per_component := 16; bits_used := 10;
        h_increment := 4; v_increment := 0 |} :: skipn 1 nv12_planes)
    fresh_world =
  convertFlexLayout 64 (mapper_backend FLEX_FORMAT_YCbCr nv12_planes) 5
    GRALLOC1_ERROR_NONE (layout_of FLEX_FORMAT_YCbCr nv12_planes)
    (firstn 1 nv12_planes ++ skipn 1 nv12_planes) fresh_world.
Proof.
  apply (convertFlexLayout_ignores_other_planes 64
           (mapper_backend FLEX_FORMAT_YCbCr nv12_planes) 5
           GRALLOC1_ERROR_NONE (layout_of FLEX_FORMAT_YCbCr nv12_planes)
           (firstn 1 nv12_planes) (skipn 1 nv12_planes)
           {| top_left := 12288; component := FLEX_COMPONENT_other;
              bits_per_component := 16; bits_used := 10;
              h_increment := 4; v_increment := 0 |}
           fresh_world).
  - simpl. discriminate.
  - simpl. discriminate.
  - simpl. discriminate.
Defined.

(** ** The log of calls *)

Lemma count_log (f : Call -> bool) (c : Call) (w : World) :
  length (filter f (calls (log c w))) =
  (length (filter f (calls w)) + (if f c then 1 else 0))%nat.
Proof.
  unfold log; simpl. rewrite filter_app, length_app. simpl.
  destruct (f c); reflexivity.
Qed.

Lemma count_app (f : Call -> bool) (cs ds : list Call) :
  length (filter f (cs ++ ds)) =
  (length (filter f cs) + length (filter f ds))%nat.
Proof. rewrite filter_app, length_app. reflexivity. Qed.

Lemma unlock_log (be : Backend) (handle : buffer_handle_t) (w : World) :
  calls (snd (unlock be handle w)) = calls w ++ unlock_calls be handle.
Proof.
  unfold unlock, unlockAsync, unlock_calls.
  destruct (mMapper_valid be); simpl.
  - rewrite <- !app_assoc. reflexivity.
  - destruct (mDevice_unlock be handle) as [error dupFd].
    destruct error; simpl; rewrite <- ?app_assoc; reflexivity.
Qed.


Lemma unlock_calls_locks (be : Backend) (handle h : buffer_handle_t) :
  locks h (unlock_calls be handle) = 0%nat.
Proof.
  unfold unlock_calls.
  destruct (mMapper_valid be); [reflexivity|].
  destruct (error_eqb _ _); reflexivity.
Qed.

Lemma unlock_calls_backend (be : Backend) (handle : buffer_handle_t) :
  if mMapper_valid be
  then device_calls (unlock_calls be handle) = 0%nat
  else mapper_calls (unlock_calls be handle) = 0%nat.
Proof.
  unfold unlock_calls.
  destruct (mMapper_valid be); [reflexivity|].
  destruct (error_eqb _ _); reflexivity.
Qed.

(** The calls of the lock phase, by the way it ends. *)
Lemma lockFlexLayout_Locked_log (be : Backend)
    (handle : buffer_handle_t) (usage : Z) (bounds : Rect) (fenceFd : Z)
    (w w1 : World) (error : gralloc1_error_t)
    (flexLayout : android_flex_layout_t)
    (planes : list android_flex_plane_t) :
  lockFlexLayout be handle usage bounds fenceFd w =
    Locked error flexLayout planes w1 ->
  calls w1 =
  calls w ++
  (if mMapper_valid be then [MapperLock handle]
   else [DeviceGetNumFlexPlanes handle; DeviceLockFlex handle]).
Proof.
  unfold lockFlexLayout.
  destruct (mMapper_valid be).
  - destruct (mMapper_lock be handle usage usage _ fenceFd) as [e l].
    destruct (error_eqb e GRALLOC1_ERROR_NONE); intros [= <- <- <- <-];
      reflexivity.
  - destruct (mDevice_hasCapability_ON_ADAPTER be).
    + destruct (mDevice_lockYCbCr be handle usage usage _ (ycbcr w) fenceFd).
      discriminate.
    + destruct (mDevice_getNumFlexPlanes be handle) as [e numPlanes].
      destruct (negb (error_eqb e GRALLOC1_ERROR_NONE)); [discriminate|].
      destruct (numPlanes <? 3)%N; [discriminate|].
      destruct (mDevice_lockFlex _ _ _ _ _ _ _) as [e' fl].
      intros [= <- <- <- <-]; simpl. rewrite <- app_assoc. reflexivity.
Qed.

Lemma lockFlexLayout_Returned_log (be : Backend)
    (handle : buffer_handle_t) (usage : Z) (bounds : Rect) (fenceFd : Z)
    (w w1 : World) (error : gralloc1_error_t) :
  lockFlexLayout be handle usage bounds fenceFd w = Returned error w1 ->
  mMapper_valid be = false /\
  calls w1 =
  calls w ++
  (if mDevice_hasCapability_ON_ADAPTER be then [DeviceLockYCbCr handle]
   else [DeviceGetNumFlexPlanes handle]).
Proof.
  unfold lockFlexLayout.
  destruct (mMapper_valid be).
  - destruct (mMapper_lock be handle usage usage _ fenceFd) as [e l].
    destruct (error_eqb e GRALLOC1_ERROR_NONE); discriminate.
  - destruct (mDevice_hasCapability_ON_ADAPTER be).
    + destruct (mDevice_lockYCbCr be handle usage usage _ (ycbcr w) fenceFd).
      intros [= <- <-]. repeat split.
    + destruct (mDevice_getNumFlexPlanes be handle) as [e numPlanes].
      destruct (negb (error_eqb e GRALLOC1_ERROR_NONE)).
      * intros [= <- <-]. repeat split.
      * destruct (numPlanes <? 3)%N.
        -- intros [= <- <-]. repeat split.
        -- destruct (mDevice_lockFlex _ _ _ _ _ _ _) as [e' fl]. discriminate.
Qed.

(** The four ways lockAsyncYCbCr ends. *)
Lemma lockAsyncYCbCr_cases (size_t_bits : Z) (be : Backend)
    (handle : buffer_handle_t) (usage : Z) (bounds : Rect) (fenceFd : Z)
    (w : World) :
  (exists e w1,
     lockFlexLayout be handle usage bounds fenceFd w = Returned e w1 /\
     lockAsyncYCbCr size_t_bits be handle usage bounds fenceFd w = (e, w1)) \/
  (exists e fl planes w1,
     lockFlexLayout be handle usage bounds fenceFd w = Locked e fl planes w1 /\
     e <> GRALLOC1_ERROR_NONE /\
     lockAsyncYCbCr size_t_bits be handle usage bounds fenceFd w = (e, w1)) \/
  (exists fl planes w1 out,
     lockFlexLayout be handle usage bounds fenceFd w =
       Locked GRALLOC1_ERROR_NONE fl planes w1 /\
     FlexYCbCrResolver size_t_bits (format fl) planes = Some out /\
     lockAsyncYCbCr size_t_bits be handle usage bounds fenceFd w =
       (GRALLOC1_ERROR_NONE, store out w1)) \/
  (exists fl planes w1,
     lockFlexLayout be handle usage bounds fenceFd w =
       Locked GRALLOC1_ERROR_NONE fl planes w1 /\
     FlexYCbCrResolver size_t_bits (format fl) planes = None /\
     lockAsyncYCbCr size_t_bits be handle usage bounds fenceFd w =
       (GRALLOC1_ERROR_UNSUPPORTED, snd (unlock be handle w1))).
Proof.
  unfold lockAsyncYCbCr.
  destruct (lockFlexLayout be handle usage bounds fenceFd w)
    as [e w1|e fl planes w1].
  - left. exists e, w1. split; reflexivity.
  - right. destruct (error_eqb e GRALLOC1_ERROR_NONE) eqn:E; simpl.
    + right. apply error_eqb_eq in E. subst e.
      rewrite convertFlexLayout_refines.
      destruct (FlexYCbCrResolver size_t_bits (format fl) planes)
        as [out|] eqn:R.
      * left. exists fl, planes, w1, out. repeat split; assumption.
      * right. exists fl, planes, w1. repeat split; assumption.
    + left. exists e, fl, planes, w1. repeat split.
      intros ->. discriminate.
Qed.

Ltac count_calls :=
  unfold locks, unlocks, mapper_calls, device_calls in *;
  repeat rewrite count_app; simpl;
  repeat rewrite Z.eqb_refl; simpl; try lia.

(** ** More on lockAsyncYCbCr *)

Lemma lockAsyncYCbCr_success_counts
    (size_t_bits : Z) (be : Backend) (handle : buffer_handle_t) (usage : Z)
    (bounds : Rect) (fenceFd : Z) (w : World) :
  fst (lockAsyncYCbCr size_t_bits be handle usage bounds fenceFd w) =
    GRALLOC1_ERROR_NONE ->
  locks handle
    (calls (snd (lockAsyncYCbCr size_t_bits be handle usage bounds fenceFd w)))
    = S (locks handle (calls w)) /\
  forall h,
    unlocks h
      (calls (snd (lockAsyncYCbCr size_t_bits be handle usage bounds fenceFd w)))
    = unlocks h (calls w).
Proof.
  destruct (lockAsyncYCbCr_cases size_t_bits be handle usage bounds fenceFd w)
    as [(e & w1 & L & ->)|[(e & fl & planes & w1 & L & He & ->)
       |[(fl & planes & w1 & out & L & R & ->)|(fl & planes & w1 & L & R & ->)]]];
    simpl; intros Hok; try congruence.
  - destruct (lockFlexLayout_Returned_log _ _ _ _ _ _ _ _ L) as [Hm Hlog].
    destruct (mDevice_hasCapability_ON_ADAPTER be) eqn:A.
    + rewrite Hlog. split; [|intros h]; count_calls.
    + exfalso.
      destruct (lockFlexLayout_Returned _ _ _ _ _ _ _ _ (or_intror A) L)
        as [_ Hne]. contradiction.
  - rewrite (lockFlexLayout_Locked_log _ _ _ _ _ _ _ _ _ _ L).
    destruct (mMapper_valid be); (split; [|intros h]); count_calls.
Qed.

(** X1.  A lockAsyncYCbCr that reports success has made exactly one lock call
    on the handle and no unlock call at all: the buffer is left locked. *)
Theorem lockAsyncYCbCr_success_keeps_lock
    (size_t_bits : Z) (be : Backend) (handle : buffer_handle_t) (usage : Z)
    (bounds : Rect) (fenceFd : Z) (w : World) :
  fst (lockAsyncYCbCr size_t_bits be handle usage bounds fenceFd w) =
    GRALLOC1_ERROR_NONE ->
  locks handle
    (calls (snd (lockAsyncYCbCr size_t_bits be handle usage bounds fenceFd w)))
    = S (locks handle (calls w)) /\
  forall h,
    unlocks h
      (calls (snd (lockAsyncYCbCr size_t_bits be handle usage bounds fenceFd w)))
    = unlocks h (calls w).
Proof.
  exact (lockAsyncYCbCr_success_counts size_t_bits be handle usage bounds
           fenceFd w).
Qed.

Lemma lockAsyncYCbCr_success_keeps_lock_witness :
  locks 5
    (calls (snd (lockAsyncYCbCr 64
                   (device_backend FLEX_FORMAT_YCbCr nv12_planes) 5 3
                   full_bounds (-1) fresh_world)))
    = S (locks 5 (calls fresh_world)) /\
  forall h,
    unlocks h
      (calls (snd (lockAsyncYCbCr 64
                     (device_backend FLEX_FORMAT_YCbCr nv12_planes) 5 3
                     full_bounds (-1) fresh_world)))
    = unlocks h (calls fresh_world).
Proof.
  apply (lockAsyncYCbCr_success_keeps_lock 64
           (device_backend FLEX_FORMAT_YCbCr nv12_planes) 5 3 full_bounds
           (-1) fresh_world).
  reflexivity.
Defined.

(** X2.  lockAsyncYCbCr never unlocks what it has not locked: if the number
    of unlock calls on some handle changes, the handle is the one passed in,
    the flex lock had succeeded, the result is GRALLOC1_ERROR_UNSUPPORTED and
    there is exactly one more unlock. *)
Theorem lockAsyncYCbCr_unlocks_only_after_lock
    (size_t_bits : Z) (be : Backend) (handle h : buffer_handle_t) (usage : Z)
    (bounds : Rect) (fenceFd : Z) (w : World) :
  unlocks h
    (calls (snd (lockAsyncYCbCr size_t_bits be handle usage bounds fenceFd w)))
    <> unlocks h (calls w) ->
  h = handle /\
  fst (lockAsyncYCbCr size_t_bits be handle usage bounds fenceFd w) =
    GRALLOC1_ERROR_UNSUPPORTED /\
  (exists flexLayout planes w1,
     lockFlexLayout be handle usage bounds fenceFd w =
       Locked GRALLOC1_ERROR_NONE flexLayout planes w1) /\
  unlocks h
    (calls (snd (lockAsyncYCbCr size_t_bits be handle usage bounds fenceFd w)))
    = S (unlocks h (calls w)).
Proof.
  destruct (lockAsyncYCbCr_cases size_t_bits be handle usage bounds fenceFd w)
    as [(e & w1 & L & ->)|[(e & fl & planes & w1 & L & He & ->)
       |[(fl & planes & w1 & out & L & R & ->)|(fl & planes & w1 & L & R & ->)]]];
    simpl; intros Hchg.
  - exfalso. apply Hchg.
    destruct (lockFlexLayout_Returned_log _ _ _ _ _ _ _ _ L) as [_ Hlog].
    rewrite Hlog.
    destruct (mDevice_hasCapability_ON_ADAPTER be); count_calls.
  - exfalso. apply Hchg.
    destruct (lockFlexLayout_Locked _ _ _ _ _ _ _ _ _ _ L) as (_ & Hc & _).
    apply Hc.
  - exfalso. apply Hchg.
    destruct (lockFlexLayout_Locked _ _ _ _ _ _ _ _ _ _ L) as (_ & Hc & _).
    apply Hc.
  - destruct (lockFlexLayout_Locked _ _ _ _ _ _ _ _ _ _ L) as (_ & Hc & _).
    rewrite unlock_unlocks, Hc in *.
    destruct (Z.eqb_spec handle h) as [->|Hne].
    + split; [reflexivity|]. split; [reflexivity|]. split; [|reflexivity].
      exists fl, planes, w1. exact L.
    + exfalso. apply Hchg. reflexivity.
Qed.

Lemma lockAsyncYCbCr_unlocks_only_after_lock_witness :
  5 = 5 /\
  fst (lockAsyncYCbCr 64 (mapper_backend FLEX_FORMAT_YCbCr deep_cr_planes)
         5 3 full_bounds (-1) fresh_world) = GRALLOC1_ERROR_UNSUPPORTED /\
  (exists flexLayout planes w1,
     lockFlexLayout (mapper_backend FLEX_FORMAT_YCbCr deep_cr_planes) 5 3
       full_bounds (-1) fresh_world =
       Locked GRALLOC1_ERROR_NONE flexLayout planes w1) /\
  unlocks 5
    (calls (snd (lockAsyncYCbCr 64
                   (mapper_backend FLEX_FORMAT_YCbCr deep_cr_planes) 5 3
                   full_bounds (-1) fresh_world)))
    = S (unlocks 5 (calls fresh_world)).
Proof.
  apply (lockAsyncYCbCr_unlocks_only_after_lock 64
           (mapper_backend FLEX_FORMAT_YCbCr deep_cr_planes) 5 5 3
           full_bounds (-1) fresh_world).
  vm_compute. discriminate.
Defined.

(** X3.  On a Gralloc1 device without the adapter capability, when
    getNumFlexPlanes fails or reports fewer than three planes,
    lockAsyncYCbCr returns at once, with the device's error in the first case
    and GRALLOC1_ERROR_UNSUPPORTED in the second; getNumFlexPlanes is the only
    call made, so nothing is locked or unlocked, and the record is
    untouched. *)
Theorem lockAsyncYCbCr_device_prelock_exit
    (size_t_bits : Z) (be : Backend) (handle : buffer_handle_t) (usage : Z)
    (bounds : Rect) (fenceFd : Z) (w : World)
    (e : gralloc1_error_t) (numPlanes : N) :
  mMapper_valid be = false ->
  mDevice_hasCapability_ON_ADAPTER be = false ->
  mDevice_getNumFlexPlanes be handle = (e, numPlanes) ->
  e <> GRALLOC1_ERROR_NONE \/ (numPlanes < 3)%N ->
  lockAsyncYCbCr size_t_bits be handle usage bounds fenceFd w =
  (match e with
   | GRALLOC1_ERROR_NONE => GRALLOC1_ERROR_UNSUPPORTED
   | _ => e
   end,
   {| ycbcr := ycbcr w;
      calls := calls w ++ [DeviceGetNumFlexPlanes handle] |}).
Proof.
  intros Hm Ha Hn Hexit.
  unfold lockAsyncYCbCr, lockFlexLayout. rewrite Hm, Ha, Hn.
  destruct e; simpl; try reflexivity.
  destruct Hexit as [H|H]; [congruence|].
  apply N.ltb_lt in H. rewrite H. reflexivity.
Qed.

Lemma lockAsyncYCbCr_device_prelock_exit_witness :
  lockAsyncYCbCr 64
    (device_backend FLEX_FORMAT_YCbCr (firstn 2 nv12_planes)) 5 3
    full_bounds (-1) fresh_world =
  (GRALLOC1_ERROR_UNSUPPORTED,
   {| ycbcr := ycbcr fresh_world;
      calls := calls fresh_world ++ [DeviceGetNumFlexPlanes 5] |}).
Proof.
  apply (lockAsyncYCbCr_device_prelock_exit 64
           (device_backend FLEX_FORMAT_YCbCr (firstn 2 nv12_planes)) 5 3
           full_bounds (-1) fresh_world GRALLOC1_ERROR_NONE 2%N).
  - reflexivity.
  - reflexivity.
  - reflexivity.
  - right. reflexivity.
Defined.

Lemma FlexYCbCrResolver_few_planes (size_t_bits : Z)
    (fmt : android_flex_format_t) (planes : list android_flex_plane_t) :
  (length planes < 3)%nat ->
  FlexYCbCrResolver size_t_bits fmt planes = None.
Proof.
  intros Hlen. unfold FlexYCbCrResolver.
  destruct fmt; try reflexivity.
  destruct planes as [|a [|b [|c rest]]]; simpl in Hlen; try lia.
  - reflexivity.
  - unfold last_seen; simpl. destruct (component a); reflexivity.
  - unfold last_seen; simpl.
    destruct (component a), (component b); reflexivity.
Qed.

(** X4.  The conversion has no plane count of its own, yet a list of fewer
    than three planes always ends in GRALLOC1_ERROR_UNSUPPORTED with the
    record untouched: three components need three planes. *)
Theorem convertFlexLayout_needs_three_planes
    (size_t_bits : Z) (be : Backend) (handle : buffer_handle_t)
    (flexLayout : android_flex_layout_t)
    (planes : list android_flex_plane_t) (w : World) :
  (length planes < 3)%nat ->
  fst (convertFlexLayout size_t_bits be handle GRALLOC1_ERROR_NONE
         flexLayout planes w) = GRALLOC1_ERROR_UNSUPPORTED /\
  ycbcr (snd (convertFlexLayout size_t_bits be handle GRALLOC1_ERROR_NONE
                flexLayout planes w)) = ycbcr w.
Proof.
  intros Hlen.
  rewrite convertFlexLayout_unsupported.
  - split; [reflexivity|apply unlock_unsupported_ycbcr].
  - apply FlexYCbCrResolver_few_planes. exact Hlen.
Qed.

Lemma convertFlexLayout_needs_three_planes_witness :
  fst (convertFlexLayout 64 (mapper_backend FLEX_FORMAT_YCbCr nv12_planes) 5
         GRALLOC1_ERROR_NONE
         (layout_of FLEX_FORMAT_YCbCr (skipn 1 nv12_planes))
         (skipn 1 nv12_planes) fresh_world) = GRALLOC1_ERROR_UNSUPPORTED /\
  ycbcr (snd (convertFlexLayout 64
                (mapper_backend FLEX_FORMAT_YCbCr nv12_planes) 5
                GRALLOC1_ERROR_NONE
                (layout_of FLEX_FORMAT_YCbCr (skipn 1 nv12_planes))
                (skipn 1 nv12_planes) fresh_world)) = ycbcr fresh_world.
Proof.
  apply (convertFlexLayout_needs_three_planes 64
           (mapper_backend FLEX_FORMAT_YCbCr nv12_planes) 5
           (layout_of FLEX_FORMAT_YCbCr (skipn 1 nv12_planes))
           (skipn 1 nv12_planes) fresh_world).
  simpl. lia.
Defined.

(** X5.  lockAsyncYCbCr makes up no error but GRALLOC1_ERROR_UNSUPPORTED:
    any other failure is, unchanged, the error of the one backend call that
    failed (the mapper's lock; or the device's lockYCbCr, getNumFlexPlanes or
    lockFlex). *)
Theorem lockAsyncYCbCr_error_origin
    (size_t_bits : Z) (be : Backend) (handle : buffer_handle_t) (usage : Z)
    (bounds : Rect) (fenceFd : Z) (w : World) :
  fst (lockAsyncYCbCr size_t_bits be handle usage bounds fenceFd w) =
    GRALLOC1_ERROR_NONE \/
  fst (lockAsyncYCbCr size_t_bits be handle usage bounds fenceFd w) =
    GRALLOC1_ERROR_UNSUPPORTED \/
  fst (lockAsyncYCbCr size_t_bits be handle usage bounds fenceFd w) =
    if mMapper_valid be then
      fst (mMapper_lock be handle usage usage (asGralloc1Rect bounds) fenceFd)
    else if mDevice_hasCapability_ON_ADAPTER be then
      fst (mDevice_lockYCbCr be handle usage usage (asGralloc1Rect bounds)
             (ycbcr w) fenceFd)
    else if error_eqb (fst (mDevice_getNumFlexPlanes be handle))
              GRALLOC1_ERROR_NONE then
      fst (mDevice_lockFlex be handle usage usage (asGralloc1Rect bounds)
             {| format := FLEX_FORMAT_INVALID;
                num_planes := snd (mDevice_getNumFlexPlanes be handle);
                planes :=
                  repeat zero_plane
                    (N.to_nat (snd (mDevice_getNumFlexPlanes be handle))) |}
             fenceFd)
    else fst (mDevice_getNumFlexPlanes be handle).
Proof.
  unfold lockAsyncYCbCr, lockFlexLayout.
  destruct (mMapper_valid be).
  - destruct (mMapper_lock be handle usage usage _ fenceFd) as [e l]. simpl.
    destruct (error_eqb e GRALLOC1_ERROR_NONE) eqn:E; simpl; rewrite E; simpl.
    + apply error_eqb_eq in E. subst e.
      rewrite convertFlexLayout_refines.
      destruct (FlexYCbCrResolver _ _ _); simpl; auto.
    + auto.
  - destruct (mDevice_hasCapability_ON_ADAPTER be).
    + destruct (mDevice_lockYCbCr be handle usage usage _ (ycbcr w) fenceFd).
      simpl. auto.
    + destruct (mDevice_getNumFlexPlanes be handle) as [e numPlanes]. simpl.
      destruct (error_eqb e GRALLOC1_ERROR_NONE) eqn:E; simpl; [|auto].
      destruct (numPlanes <? 3)%N; simpl; [auto|].
      destruct (mDevice_lockFlex _ _ _ _ _ _ _) as [e' fl]. simpl.
      destruct (error_eqb e' GRALLOC1_ERROR_NONE) eqn:E'; simpl; [|auto].
      apply error_eqb_eq in E'. subst e'.
      rewrite convertFlexLayout_refines.
      destruct (FlexYCbCrResolver _ _ _); simpl; auto.
Qed.

(** X6.  On a Gralloc1 device with the adapter capability lockAsyncYCbCr is
    the device's lockYCbCr and nothing else: it returns the device's error,
    the record is whatever the device left in it (on failure too), and no
    flex-layout call and no unlock is made. *)
Theorem lockAsyncYCbCr_adapter_passthrough
    (size_t_bits : Z) (be : Backend) (handle : buffer_handle_t) (usage : Z)
    (bounds : Rect) (fenceFd : Z) (w : World) :
  mMapper_valid be = false ->
  mDevice_hasCapability_ON_ADAPTER be = true ->
  lockAsyncYCbCr size_t_bits be handle usage bounds fenceFd w =
  (fst (mDevice_lockYCbCr be handle usage usage (asGralloc1Rect bounds)
          (ycbcr w) fenceFd),
   {| ycbcr :=
        snd (mDevice_lockYCbCr be handle usage usage (asGralloc1Rect bounds)
               (ycbcr w) fenceFd);
      calls := calls w ++ [DeviceLockYCbCr handle] |}).
Proof.
  intros Hm Ha. unfold lockAsyncYCbCr, lockFlexLayout. rewrite Hm, Ha.
  destruct (mDevice_lockYCbCr be handle usage usage _ (ycbcr w) fenceFd).
  reflexivity.
Qed.

Lemma lockAsyncYCbCr_adapter_passthrough_witness :
  lockAsyncYCbCr 64
    (adapter_backend (GRALLOC1_ERROR_device 3)
       {| y := 1; cb := 2; cr := 3;
          ystride := 0; cstride := 0; chroma_step := 0 |})
    5 3 full_bounds (-1) fresh_world =
  (GRALLOC1_ERROR_device 3,
   {| ycbcr := {| y := 1; cb := 2; cr := 3;
                  ystride := 0; cstride := 0; chroma_step := 0 |};
      calls := calls fresh_world ++ [DeviceLockYCbCr 5] |}).
Proof.
  apply (lockAsyncYCbCr_adapter_passthrough 64
           (adapter_backend (GRALLOC1_ERROR_device 3)
              {| y := 1; cb := 2; cr := 3;
                 ystride := 0; cstride := 0; chroma_step := 0 |})
           5 3 full_bounds (-1) fresh_world).
  - reflexivity.
  - reflexivity.
Defined.

Lemma FlexYCbCrResolver_Some_valid (size_t_bits : Z)
    (fmt : android_flex_format_t) (planes : list android_flex_plane_t)
    (out : android_ycbcr) :
  FlexYCbCrResolver size_t_bits fmt planes = Some out ->
  exists yP cbP crP,
    fmt = FLEX_FORMAT_YCbCr /\
    last_seen FLEX_COMPONENT_Y planes = Some yP /\
    last_seen FLEX_COMPONENT_Cb planes = Some cbP /\
    last_seen FLEX_COMPONENT_Cr planes = Some crP /\
    usable_8bit_plane yP /\ usable_8bit_plane cbP /\ usable_8bit_plane crP /\
    v_increment cbP = v_increment crP /\
    h_increment cbP = h_increment crP /\
    out = packYCbCr size_t_bits yP cbP crP.
Proof.
  unfold FlexYCbCrResolver.
  destruct fmt; try discriminate.
  destruct (last_seen FLEX_COMPONENT_Y planes) as [yP|] eqn:Hy; [|discriminate].
  destruct (last_seen FLEX_COMPONENT_Cb planes) as [cbP|] eqn:Hcb;
    [|discriminate].
  destruct (last_seen FLEX_COMPONENT_Cr planes) as [crP|] eqn:Hcr;
    [|discriminate].
  destruct (isValidYCbCrPlane yP) eqn:Vy; [|discriminate].
  destruct (isValidYCbCrPlane cbP) eqn:Vcb; [|discriminate].
  destruct (isValidYCbCrPlane crP) eqn:Vcr; [|discriminate].
  destruct (Z.eqb_spec (v_increment cbP) (v_increment crP)) as [Ev|Ev];
    [|discriminate].
  destruct (Z.eqb_spec (h_increment cbP) (h_increment crP)) as [Eh|Eh];
    [|discriminate].
  simpl. intros [= <-].
  destruct (last_seen_Some _ _ _ Hy) as [_ Cy].
  destruct (last_seen_Some _ _ _ Hcb) as [_ Ccb].
  destruct (last_seen_Some _ _ _ Hcr) as [_ Ccr].
  exists yP, cbP, crP.
  repeat split; try assumption; try reflexivity;
    apply isValidYCbCrPlane_usable; congruence.
Qed.

(** X7.  What success guarantees.  When lockAsyncYCbCr succeeds on a locked
    flex layout, the layout was tagged YCbCr, its last Y, Cb and Cr planes
    passed the validation and the chroma planes agree; and the descriptor has
    strictly positive ystride and cstride, a chroma_step of 1 or 2, and the
    Cr plane's increments equal to cstride and chroma_step. *)
Theorem lockAsyncYCbCr_success_descriptor
    (size_t_bits : Z) (be : Backend) (handle : buffer_handle_t) (usage : Z)
    (bounds : Rect) (fenceFd : Z) (w w1 : World)
    (error : gralloc1_error_t) (flexLayout : android_flex_layout_t)
    (planes : list android_flex_plane_t) :
  32 <= size_t_bits ->
  lockFlexLayout be handle usage bounds fenceFd w =
    Locked error flexLayout planes w1 ->
  Forall int32_plane planes ->
  fst (lockAsyncYCbCr size_t_bits be handle usage bounds fenceFd w) =
    GRALLOC1_ERROR_NONE ->
  format flexLayout = FLEX_FORMAT_YCbCr /\
  exists yP cbP crP,
    last_seen FLEX_COMPONENT_Y planes = Some yP /\
    last_seen FLEX_COMPONENT_Cb planes = Some cbP /\
    last_seen FLEX_COMPONENT_Cr planes = Some crP /\
    usable_8bit_plane yP /\ usable_8bit_plane cbP /\ usable_8bit_plane crP /\
    0 < ystride
          (ycbcr (snd (lockAsyncYCbCr size_t_bits be handle usage bounds
                         fenceFd w))) /\
    0 < cstride
          (ycbcr (snd (lockAsyncYCbCr size_t_bits be handle usage bounds
                         fenceFd w))) /\
    (chroma_step
       (ycbcr (snd (lockAsyncYCbCr size_t_bits be handle usage bounds
                      fenceFd w))) = 1 \/
     chroma_step
       (ycbcr (snd (lockAsyncYCbCr size_t_bits be handle usage bounds
                      fenceFd w))) = 2) /\
    v_increment crP =
      cstride
        (ycbcr (snd (lockAsyncYCbCr size_t_bits be handle usage bounds
                       fenceFd w))) /\
    h_increment crP =
      chroma_step
        (ycbcr (snd (lockAsyncYCbCr size_t_bits be handle usage bounds
                       fenceFd w))).
Proof.
  intros Hbits Hlock Hrange.
  unfold lockAsyncYCbCr. rewrite Hlock.
  destruct (error_eqb error GRALLOC1_ERROR_NONE) eqn:E; simpl;
    [|intros ->; discriminate].
  rewrite convertFlexLayout_refines.
  destruct (FlexYCbCrResolver size_t_bits (format flexLayout) planes)
    as [out|] eqn:R; simpl; [|discriminate].
  intros _.
  destruct (FlexYCbCrResolver_Some_valid _ _ _ _ R)
    as (yP & cbP & crP & Hfmt & Hy & Hcb & Hcr & Uy & Ucb & Ucr & Ev & Eh & ->).
  split; [exact Hfmt|]. exists yP, cbP, crP.
  destruct (last_seen_Some _ _ _ Hy) as [Iy _].
  destruct (last_seen_Some _ _ _ Hcb) as [Icb Ccb].
  rewrite Forall_forall in Hrange.
  destruct (Hrange _ Iy) as (_ & _ & _ & Ry).
  destruct (Hrange _ Icb) as (_ & _ & Rcbh & Rcbv).
  pose proof Uy as (_ & _ & Py & _).
  pose proof Ucb as (_ & _ & Pcb & _ & Hstep).
  specialize (Hstep (or_introl Ccb)).
  assert (Pstep : 0 <= h_increment cbP) by lia.
  simpl. rewrite !static_cast_size_t_id by (assumption || lia).
  repeat (split; [assumption|]).
  repeat split; lia.
Qed.

Lemma lockAsyncYCbCr_success_descriptor_witness :
  format {| format := FLEX_FORMAT_YCbCr; num_planes := 4%N;
            planes := two_luma_planes |} = FLEX_FORMAT_YCbCr /\
  exists yP cbP crP,
    last_seen FLEX_COMPONENT_Y two_luma_planes = Some yP /\
    last_seen FLEX_COMPONENT_Cb two_luma_planes = Some cbP /\
    last_seen FLEX_COMPONENT_Cr two_luma_planes = Some crP /\
    usable_8bit_plane yP /\ usable_8bit_plane cbP /\ usable_8bit_plane crP /\
    0 < ystride
          (ycbcr (snd (lockAsyncYCbCr 64
                         (mapper_backend FLEX_FORMAT_YCbCr two_luma_planes)
                         5 3 full_bounds (-1) fresh_world))) /\
    0 < cstride
          (ycbcr (snd (lockAsyncYCbCr 64
                         (mapper_backend FLEX_FORMAT_YCbCr two_luma_planes)
                         5 3 full_bounds (-1) fresh_world))) /\
    (chroma_step
       (ycbcr (snd (lockAsyncYCbCr 64
                      (mapper_backend FLEX_FORMAT_YCbCr two_luma_planes)
                      5 3 full_bounds (-1) fresh_world))) = 1 \/
     chroma_step
       (ycbcr (snd (lockAsyncYCbCr 64
                      (mapper_backend FLEX_FORMAT_YCbCr two_luma_planes)
                      5 3 full_bounds (-1) fresh_world))) = 2) /\
    v_increment crP =
      cstride
        (ycbcr (snd (lockAsyncYCbCr 64
                       (mapper_backend FLEX_FORMAT_YCbCr two_luma_planes)
                       5 3 full_bounds (-1) fresh_world))) /\
    h_increment crP =
      chroma_step
        (ycbcr (snd (lockAsyncYCbCr 64
                       (mapper_backend FLEX_FORMAT_YCbCr two_luma_planes)
                       5 3 full_bounds (-1) fresh_world))).
Proof.
  apply (lockAsyncYCbCr_success_descriptor 64
           (mapper_backend FLEX_FORMAT_YCbCr two_luma_planes) 5 3 full_bounds
           (-1) fresh_world (log (MapperLock 5) fresh_world)
           GRALLOC1_ERROR_NONE
           {| format := FLEX_FORMAT_YCbCr; num_planes := 4%N;
              planes := two_luma_planes |}
           two_luma_planes).
  - lia.
  - reflexivity.
  - repeat constructor; simpl; lia.
  - reflexivity.
Defined.

(** X8.  Only the chosen backend is called: with a valid Gralloc2 mapper
    lockAsyncYCbCr makes no call on the Gralloc1 device, and without one it
    makes no call on the mapper. *)
Theorem lockAsyncYCbCr_one_backend
    (size_t_bits : Z) (be : Backend) (handle : buffer_handle_t) (usage : Z)
    (bounds : Rect) (fenceFd : Z) (w : World) :
  if mMapper_valid be then
    device_calls
      (calls (snd (lockAsyncYCbCr size_t_bits be handle usage bounds fenceFd w)))
    = device_calls (calls w)
  else
    mapper_calls
      (calls (snd (lockAsyncYCbCr size_t_bits be handle usage bounds fenceFd w)))
    = mapper_calls (calls w).
Proof.
  pose proof (unlock_calls_backend be handle) as Hu.
  destruct (lockAsyncYCbCr_cases size_t_bits be handle usage bounds fenceFd w)
    as [(e & w1 & L & ->)|[(e & fl & planes & w1 & L & He & ->)
       |[(fl & planes & w1 & out & L & R & ->)|(fl & planes & w1 & L & R & ->)]]];
    simpl.
  - destruct (lockFlexLayout_Returned_log _ _ _ _ _ _ _ _ L) as [Hm Hlog].
    rewrite Hm, Hlog.
    destruct (mDevice_hasCapability_ON_ADAPTER be); count_calls.
  - rewrite (lockFlexLayout_Locked_log _ _ _ _ _ _ _ _ _ _ L).
    destruct (mMapper_valid be); count_calls.
  - rewrite (lockFlexLayout_Locked_log _ _ _ _ _ _ _ _ _ _ L).
    destruct (mMapper_valid be); count_calls.
  - rewrite unlock_log, (lockFlexLayout_Locked_log _ _ _ _ _ _ _ _ _ _ L).
    destruct (mMapper_valid be); count_calls.
Qed.

(** X9.  The outcome of a rejected layout, call by call: after a successful
    flex lock, a failing lockAsyncYCbCr has made the lock calls of its
    backend and then the calls of one unlock, in this order, and nothing
    else. *)
Theorem lockAsyncYCbCr_rejection_log
    (size_t_bits : Z) (be : Backend) (handle : buffer_handle_t) (usage : Z)
    (bounds : Rect) (fenceFd : Z) (w w1 : World)
    (flexLayout : android_flex_layout_t)
    (planes : list android_flex_plane_t) :
  lockFlexLayout be handle usage bounds fenceFd w =
    Locked GRALLOC1_ERROR_NONE flexLayout planes w1 ->
  fst (lockAsyncYCbCr size_t_bits be handle usage bounds fenceFd w) <>
    GRALLOC1_ERROR_NONE ->
  calls (snd (lockAsyncYCbCr size_t_bits be handle usage bounds fenceFd w)) =
  calls w ++
  (if mMapper_valid be then [MapperLock handle]
   else [DeviceGetNumFlexPlanes handle; DeviceLockFlex handle]) ++
  calls (snd (unlock be handle {| ycbcr := ycbcr w; calls := [] |})).
Proof.
  intros Hlock. unfold lockAsyncYCbCr. rewrite Hlock. simpl.
  rewrite convertFlexLayout_refines.
  destruct (FlexYCbCrResolver size_t_bits (format flexLayout) planes);
    simpl; [congruence|].
  intros _. rewrite !unlock_log.
  rewrite (lockFlexLayout_Locked_log _ _ _ _ _ _ _ _ _ _ Hlock).
  simpl. rewrite <- app_assoc. reflexivity.
Qed.

Lemma lockAsyncYCbCr_rejection_log_witness :
  calls (snd (lockAsyncYCbCr 64
                (stuck_device_backend FLEX_FORMAT_YCbCr mixed_step_planes
                   (GRALLOC1_ERROR_device 2))
                5 3 full_bounds (-1) fresh_world)) =
  calls fresh_world ++
  (if mMapper_valid
        (stuck_device_backend FLEX_FORMAT_YCbCr mixed_step_planes
           (GRALLOC1_ERROR_device 2))
   then [MapperLock 5]
   else [DeviceGetNumFlexPlanes 5; DeviceLockFlex 5]) ++
  calls (snd (unlock
                (stuck_device_backend FLEX_FORMAT_YCbCr mixed_step_planes
                   (GRALLOC1_ERROR_device 2))
                5 {| ycbcr := ycbcr fresh_world; calls := [] |})).
Proof.
  apply (lockAsyncYCbCr_rejection_log 64
           (stuck_device_backend FLEX_FORMAT_YCbCr mixed_step_planes
              (GRALLOC1_ERROR_device 2))
           5 3 full_bounds (-1) fresh_world
           (log (DeviceLockFlex 5) (log (DeviceGetNumFlexPlanes 5) fresh_world))
           {| format := FLEX_FORMAT_YCbCr; num_planes := 3%N;
              planes := mixed_step_planes |}
           mixed_step_planes).
  - reflexivity.
  - vm_compute. discriminate.
Defined.

(** ** unlock and unlockAsync *)


(** X11.  unlockAsync always makes exactly one unlock call on the handle.
    It can fail only on the Gralloc1 device; then it returns the device's
    error and leaves the caller's fenceFd as it was. *)
Theorem unlockAsync_failure_keeps_fenceFd
    (be : Backend) (handle : buffer_handle_t) (fenceFd : Z) (w : World) :
  unlocks handle (calls (snd (unlockAsync be handle fenceFd w))) =
    S (unlocks handle (calls w)) /\
  length (calls (snd (unlockAsync be handle fenceFd w))) =
    S (length (calls w)) /\
  (fst (fst (unlockAsync be handle fenceFd w)) <> GRALLOC1_ERROR_NONE ->
   mMapper_valid be = false /\
   fst (fst (unlockAsync be handle fenceFd w)) =
     fst (mDevice_unlock be handle) /\
   snd (fst (unlockAsync be handle fenceFd w)) = fenceFd).
Proof.
  unfold unlockAsync.
  destruct (mMapper_valid be); simpl.
  - split; [count_calls|]. split; [rewrite length_app; simpl; lia|].
    congruence.
  - destruct (mDevice_unlock be handle) as [error dupFd].
    destruct error; simpl;
      (split; [count_calls|]); (split; [rewrite length_app; simpl; lia|]);
      intros H; try congruence; repeat split.
Qed.

(** ** Order of the planes *)

Lemma last_seen_permutation (c : android_flex_component_t)
    (planes planes' : list android_flex_plane_t) :
  c <> FLEX_COMPONENT_other ->
  one_plane_per_component planes ->
  Permutation planes planes' ->
  last_seen c planes = last_seen c planes'.
Proof.
  intros Hc Hone Hperm.
  destruct (last_seen c planes) as [p|] eqn:E;
    destruct (last_seen c planes') as [q|] eqn:E'; try reflexivity.
  - destruct (last_seen_Some _ _ _ E) as [Ip Cp].
    destruct (last_seen_Some _ _ _ E') as [Iq Cq].
    apply (Permutation_in _ (Permutation_sym Hperm)) in Iq.
    f_equal. apply Hone; congruence.
  - destruct (last_seen_Some _ _ _ E) as [Ip Cp].
    apply (Permutation_in _ Hperm) in Ip.
    exfalso. exact (proj1 (last_seen_None _ _) E' p Ip Cp).
  - destruct (last_seen_Some _ _ _ E') as [Iq Cq].
    apply (Permutation_in _ (Permutation_sym Hperm)) in Iq.
    exfalso. exact (proj1 (last_seen_None _ _) E q Iq Cq).
Qed.

(** X12.  When each of Y, Cb and Cr is borne by at most one plane, the order
    of the planes does not matter: the conversion gives the same result and
    the same final state on any rearrangement of the list. *)
Theorem convertFlexLayout_order_irrelevant
    (size_t_bits : Z) (be : Backend) (handle : buffer_handle_t)
    (error : gralloc1_error_t) (flexLayout : android_flex_layout_t)
    (planes planes' : list android_flex_plane_t) (w : World) :
  one_plane_per_component planes ->
  Permutation planes planes' ->
  convertFlexLayout size_t_bits be handle error flexLayout planes w =
  convertFlexLayout size_t_bits be handle error flexLayout planes' w.
Proof.
  intros Hone Hperm.
  rewrite !convertFlexLayout_refines. unfold FlexYCbCrResolver.
  rewrite (last_seen_permutation FLEX_COMPONENT_Y planes planes'),
          (last_seen_permutation FLEX_COMPONENT_Cb planes planes'),
          (last_seen_permutation FLEX_COMPONENT_Cr planes planes');
    (assumption || discriminate || reflexivity).
Qed.

Lemma convertFlexLayout_order_irrelevant_witness :
  convertFlexLayout 64 (mapper_backend FLEX_FORMAT_YCbCr nv12_planes) 5
    GRALLOC1_ERROR_NONE (layout_of FLEX_FORMAT_YCbCr nv12_planes)
    nv12_planes fresh_world =
  convertFlexLayout 64 (mapper_backend FLEX_FORMAT_YCbCr nv12_planes) 5
    GRALLOC1_ERROR_NONE (layout_of FLEX_FORMAT_YCbCr nv12_planes)
    nv21_order_planes fresh_world.
Proof.
  apply (convertFlexLayout_order_irrelevant 64
           (mapper_backend FLEX_FORMAT_YCbCr nv12_planes) 5
           GRALLOC1_ERROR_NONE (layout_of FLEX_FORMAT_YCbCr nv12_planes)
           nv12_planes nv21_order_planes fresh_world).
  - intros p q Hp Hq Hc _. simpl in Hp, Hq.
    destruct Hp as [<-|[<-|[<-|[]]]]; destruct Hq as [<-|[<-|[<-|[]]]];
      (reflexivity || discriminate Hc).
  - unfold nv12_planes, nv21_order_planes.
    apply Permutation_trans with
      [plane8 FLEX_COMPONENT_Y 1 64 4096;
       plane8 FLEX_COMPONENT_Cr 2 32 8193;
       plane8 FLEX_COMPONENT_Cb 2 32 8192].
    + apply perm_skip. apply perm_swap.
    + apply Permutation_trans with
        [plane8 FLEX_COMPONENT_Cr 2 32 8193;
         plane8 FLEX_COMPONENT_Y 1 64 4096;
         plane8 FLEX_COMPONENT_Cb 2 32 8192].
      * apply perm_swap.
      * apply perm_skip. apply perm_swap.
Defined.

(** ** lockYCbCr *)

(** X13.  lockYCbCr and unlock pair up: after a lockYCbCr that reports
    success, one unlock leaves the log with exactly one more lock call and
    one more unlock call on the handle than before, and the descriptor
    lockYCbCr wrote is still in the record. *)
Theorem lockYCbCr_then_unlock_balanced
    (size_t_bits : Z) (be : Backend) (handle : buffer_handle_t) (usage : Z)
    (bounds : Rect) (w : World) :
  fst (lockYCbCr size_t_bits be handle usage bounds w) =
    GRALLOC1_ERROR_NONE ->
  locks handle
    (calls (snd (unlock be handle
                   (snd (lockYCbCr size_t_bits be handle usage bounds w))))) =
    S (locks handle (calls w)) /\
  unlocks handle
    (calls (snd (unlock be handle
                   (snd (lockYCbCr size_t_bits be handle usage bounds w))))) =
    S (unlocks handle (calls w)) /\
  ycbcr (snd (unlock be handle
                (snd (lockYCbCr size_t_bits be handle usage bounds w)))) =
    ycbcr (snd (lockYCbCr size_t_bits be handle usage bounds w)).
Proof.
  unfold lockYCbCr. intros Hok.
  destruct (lockAsyncYCbCr_success_counts size_t_bits be handle usage
              bounds (-1) w Hok) as [Hl Hu].
  split; [|split].
  - rewrite unlock_log. unfold locks in *. rewrite count_app.
    fold (locks handle (unlock_calls be handle)).
    rewrite unlock_calls_locks. lia.
  - rewrite unlock_unlocks, Z.eqb_refl, Hu. reflexivity.
  - apply unlock_ycbcr.
Qed.

Lemma lockYCbCr_then_unlock_balanced_witness :
  locks 5
    (calls (snd (unlock (device_backend FLEX_FORMAT_YCbCr nv12_planes) 5
                   (snd (lockYCbCr 64
                           (device_backend FLEX_FORMAT_YCbCr nv12_planes)
                           5 3 full_bounds fresh_world))))) =
    S (locks 5 (calls fresh_world)) /\
  unlocks 5
    (calls (snd (unlock (device_backend FLEX_FORMAT_YCbCr nv12_planes) 5
                   (snd (lockYCbCr 64
                           (device_backend FLEX_FORMAT_YCbCr nv12_planes)
                           5 3 full_bounds fresh_world))))) =
    S (unlocks 5 (calls fresh_world)) /\
  ycbcr (snd (unlock (device_backend FLEX_FORMAT_YCbCr nv12_planes) 5
                (snd (lockYCbCr 64
                        (device_backend FLEX_FORMAT_YCbCr nv12_planes)
                        5 3 full_bounds fresh_world)))) =
    ycbcr (snd (lockYCbCr 64 (device_backend FLEX_FORMAT_YCbCr nv12_planes)
                  5 3 full_bounds fresh_world)).
Proof.
  apply (lockYCbCr_then_unlock_balanced 64
           (device_backend FLEX_FORMAT_YCbCr nv12_planes) 5 3 full_bounds
           fresh_world).
  reflexivity.
Defined.

(** ** The two backends side by side *)

Lemma firstn_repeat_le (p : android_flex_plane_t) :
  forall k n, (k <= n)%nat -> firstn k (repeat p n) = repeat p k.
Proof.
  induction k as [|k IH]; intros n Hk; [reflexivity|].
  destruct n as [|n]; [lia|]. simpl. f_equal. apply IH. lia.
Qed.

Lemma written_into_short (n : nat) (l : list android_flex_plane_t) :
  (length l <= n)%nat ->
  written_into n l = l ++ repeat zero_plane (n - length l).
Proof.
  intros Hlen. unfold written_into.
  rewrite firstn_app, firstn_all2 by exact Hlen.
  f_equal. apply firstn_repeat_le. lia.
Qed.

Lemma written_into_exact (l : list android_flex_plane_t) :
  written_into (length l) l = l.
Proof.
  rewrite written_into_short by reflexivity.
  rewrite Nat.sub_diag. apply app_nil_r.
Qed.

Lemma last_seen_zero_planes (c : android_flex_component_t)
    (l : list android_flex_plane_t) (k : nat) :
  c <> FLEX_COMPONENT_other ->
  last_seen c (l ++ repeat zero_plane k) = last_seen c l.
Proof.
  intros Hc. rewrite last_seen_app.
  replace (last_seen c (repeat zero_plane k)) with
    (@None android_flex_plane_t); [reflexivity|].
  symmetry. apply last_seen_None. intros p Hp.
  apply repeat_spec in Hp. subst p. simpl. congruence.
Qed.

(** X14.  The two backends agree: for one and the same layout (format tag
    and planes), handed over by the Gralloc2 mapper or written by a Gralloc1
    device that reports its plane count, lockAsyncYCbCr returns the same
    result and leaves the same android_ycbcr record, also when the layout has
    fewer than three planes, which the device path refuses before locking and
    the mapper path after. *)
Theorem lockAsyncYCbCr_backends_agree
    (size_t_bits : Z) (bm bd : Backend) (handle : buffer_handle_t)
    (usage : Z) (bounds : Rect) (fenceFd : Z) (w : World)
    (fmt : android_flex_format_t) (ps : list android_flex_plane_t)
    (written : android_flex_layout_t) :
  mMapper_valid bm = true ->
  mMapper_lock bm handle usage usage (asGralloc1Rect bounds) fenceFd =
    (GRALLOC1_ERROR_NONE,
     {| layout_format := fmt; layout_planes := ps |}) ->
  mMapper_valid bd = false ->
  mDevice_hasCapability_ON_ADAPTER bd = false ->
  mDevice_getNumFlexPlanes bd handle =
    (GRALLOC1_ERROR_NONE, N.of_nat (length ps)) ->
  mDevice_lockFlex bd handle usage usage (asGralloc1Rect bounds)
    {| format := FLEX_FORMAT_INVALID;
       num_planes := N.of_nat (length ps);
       planes := repeat zero_plane (length ps) |} fenceFd =
    (GRALLOC1_ERROR_NONE, written) ->
  format written = fmt ->
  planes written = ps ->
  fst (lockAsyncYCbCr size_t_bits bm handle usage bounds fenceFd w) =
  fst (lockAsyncYCbCr size_t_bits bd handle usage bounds fenceFd w) /\
  ycbcr (snd (lockAsyncYCbCr size_t_bits bm handle usage bounds fenceFd w)) =
  ycbcr (snd (lockAsyncYCbCr size_t_bits bd handle usage bounds fenceFd w)).
Proof.
  intros Hm Hlock Hd Ha Hn Hflex Hfmt Hps.
  unfold lockAsyncYCbCr, lockFlexLayout.
  rewrite Hm, Hlock, Hd, Ha, Hn. simpl.
  rewrite convertFlexLayout_refines. simpl.
  destruct (N.ltb_spec (N.of_nat (length ps)) 3) as [Hfew|Hmany].
  - rewrite FlexYCbCrResolver_few_planes by lia. simpl.
    split; [reflexivity|]. rewrite unlock_ycbcr. reflexivity.
  - rewrite Nat2N.id, Hflex. simpl.
    rewrite convertFlexLayout_refines, Hfmt, Hps, written_into_exact.
    destruct (FlexYCbCrResolver size_t_bits fmt ps); simpl.
    + split; reflexivity.
    + split; [reflexivity|]. rewrite !unlock_ycbcr. reflexivity.
Qed.

Lemma lockAsyncYCbCr_backends_agree_witness :
  fst (lockAsyncYCbCr 64 (mapper_backend FLEX_FORMAT_YCbCr mixed_step_planes)
         5 3 full_bounds (-1) fresh_world) =
  fst (lockAsyncYCbCr 64 (device_backend FLEX_FORMAT_YCbCr mixed_step_planes)
         5 3 full_bounds (-1) fresh_world) /\
  ycbcr (snd (lockAsyncYCbCr 64
                (mapper_backend FLEX_FORMAT_YCbCr mixed_step_planes)
                5 3 full_bounds (-1) fresh_world)) =
  ycbcr (snd (lockAsyncYCbCr 64
                (device_backend FLEX_FORMAT_YCbCr mixed_step_planes)
                5 3 full_bounds (-1) fresh_world)).
Proof.
  apply (lockAsyncYCbCr_backends_agree 64
           (mapper_backend FLEX_FORMAT_YCbCr mixed_step_planes)
           (device_backend FLEX_FORMAT_YCbCr mixed_step_planes)
           5 3 full_bounds (-1) fresh_world FLEX_FORMAT_YCbCr
           mixed_step_planes
           {| format := FLEX_FORMAT_YCbCr; num_planes := 3%N;
              planes := mixed_step_planes |}).
  - reflexivity.
  - reflexivity.
  - reflexivity.
  - reflexivity.
  - reflexivity.
  - reflexivity.
  - reflexivity.
  - reflexivity.
Defined.

(** X15.  Slots of the plane vector that a Gralloc1 device leaves unwritten
    do not count: when the device reports [numPlanes] planes and lockFlex
    writes no more than that, lockAsyncYCbCr is the conversion of the planes
    written, whatever the number of slots left value-initialised. *)
Theorem lockAsyncYCbCr_device_unwritten_slots
    (size_t_bits : Z) (be : Backend) (handle : buffer_handle_t) (usage : Z)
    (bounds : Rect) (fenceFd : Z) (w : World) (numPlanes : N)
    (written : android_flex_layout_t) :
  mMapper_valid be = false ->
  mDevice_hasCapability_ON_ADAPTER be = false ->
  mDevice_getNumFlexPlanes be handle = (GRALLOC1_ERROR_NONE, numPlanes) ->
  (3 <= numPlanes)%N ->
  mDevice_lockFlex be handle usage usage (asGralloc1Rect bounds)
    {| format := FLEX_FORMAT_INVALID;
       num_planes := numPlanes;
       planes := repeat zero_plane (N.to_nat numPlanes) |} fenceFd =
    (GRALLOC1_ERROR_NONE, written) ->
  (length (planes written) <= N.to_nat numPlanes)%nat ->
  lockAsyncYCbCr size_t_bits be handle usage bounds fenceFd w =
  convertFlexLayout size_t_bits be handle GRALLOC1_ERROR_NONE written
    (planes written)
    {| ycbcr := ycbcr w;
       calls :=
         calls w ++ [DeviceGetNumFlexPlanes handle; DeviceLockFlex handle] |}.
Proof.
  intros Hm Ha Hn Hmany Hflex Hlen.
  unfold lockAsyncYCbCr, lockFlexLayout. rewrite Hm, Ha, Hn. simpl.
  apply N.ltb_ge in Hmany. rewrite Hmany, Hflex. simpl.
  rewrite !convertFlexLayout_refines, written_into_short by exact Hlen.
  unfold FlexYCbCrResolver.
  rewrite !last_seen_zero_planes by discriminate.
  unfold log; simpl. rewrite <- app_assoc. reflexivity.
Qed.

Lemma lockAsyncYCbCr_device_unwritten_slots_witness :
  lockAsyncYCbCr 64 (sparse_device_backend FLEX_FORMAT_YCbCr nv12_planes 5)
    5 3 full_bounds (-1) fresh_world =
  convertFlexLayout 64
    (sparse_device_backend FLEX_FORMAT_YCbCr nv12_planes 5)
    5 GRALLOC1_ERROR_NONE
    {| format := FLEX_FORMAT_YCbCr; num_planes := 5%N;
       planes := nv12_planes |}
    nv12_planes
    {| ycbcr := ycbcr fresh_world;
       calls :=
         calls fresh_world ++ [DeviceGetNumFlexPlanes 5; DeviceLockFlex 5] |}.
Proof.
  apply (lockAsyncYCbCr_device_unwritten_slots 64
           (sparse_device_backend FLEX_FORMAT_YCbCr nv12_planes 5)
           5 3 full_bounds (-1) fresh_world 5%N
           {| format := FLEX_FORMAT_YCbCr; num_planes := 5%N;
              planes := nv12_planes |}).
  - reflexivity.
  - reflexivity.
  - reflexivity.
  - discriminate.
  - reflexivity.
  - simpl. lia.
Defined.
